(** * Invite-link manager and membership tracker: model and properties

    A shallow embedding of the two bots of the repository:

    - [LinkGen] follows [linkgen.py] (class [TelegramGroupManagerBot]): the
      invite-link registry, the two-step revocation workflow and its two
      dictionaries of pending users;
    - [Main] follows [main.py] (class [MembershipTrackerBot]): the registry
      of join dates and the job that removes expired members.

    Python dictionaries are finite maps ([gmap]); a handler is a function
    from the bot's state (and what the platform answers) to the new state
    and the reply it sends. *)

From Stdlib Require Import ZArith QArith Lqa String Ascii List Lia.
From stdpp Require Import base gmap strings list fin_maps pretty.

Close Scope Q_scope.
Open Scope Z_scope.

(** ** What is shared by both files *)

(** A call of a [context.bot] method either returns or raises
    [telegram.error.TelegramError] (the client library raises every failure
    of the platform, network failures included, as a subclass of it). *)
Inductive api_result : Type :=
  | ApiOk
  | ApiTelegramError.

#[global] Instance api_result_eq_dec : EqDecision api_result.
Proof. solve_decision. Defined.

Definition api_ok (r : api_result) : bool :=
  match r with ApiOk => true | ApiTelegramError => false end.

(** [str(n)] for a Python [int]. *)
Definition str (n : Z) : string := pretty n.

(** ** Python string methods used by the handlers

    A message text is kept as its UTF-8 bytes.  [lower] and [strip] act on
    the ASCII range; the bytes of a character outside it are all above 127
    and are left alone (no such character lowercases to an ASCII letter
    of ['yes']). *)

Definition lower_char (c : ascii) : ascii :=
  let n := nat_of_ascii c in
  if ((65 <=? n) && (n <=? 90))%nat then ascii_of_nat (n + 32) else c.

Fixpoint lower (s : string) : string :=
  match s with
  | EmptyString => EmptyString
  | String c s' => String (lower_char c) (lower s')
  end.

(** Whitespace of [str.isspace] in the ASCII range: tab, line feed,
    vertical tab, form feed, carriage return, the four separators
    [0x1c]-[0x1f] and the space. *)
Definition isspace (c : ascii) : bool :=
  let n := nat_of_ascii c in
  (((9 <=? n) && (n <=? 13)) || ((28 <=? n) && (n <=? 32)))%nat.

Fixpoint lstrip (s : string) : string :=
  match s with
  | EmptyString => EmptyString
  | String c s' => if isspace c then lstrip s' else s
  end.

Fixpoint rstrip (s : string) : string :=
  match s with
  | EmptyString => EmptyString
  | String c s' =>
      match rstrip s' with
      | EmptyString => if isspace c then EmptyString else String c EmptyString
      | r => String c r
      end
  end.

Definition strip (s : string) : string := rstrip (lstrip s).

(** The string is made of whitespace only. *)
Fixpoint all_space (s : string) : bool :=
  match s with
  | EmptyString => true
  | String c s' => isspace c && all_space s'
  end.

(** ** Times of [linkgen.py]

    [time.time()] is a float, that is a rational; [expires_at] is an
    [int].  Python compares an [int] with a float exactly, so the
    comparison is the one of rationals. *)

Definition Qltb (x y : Q) : bool := negb (Qle_bool y x).

(** [int(x)] truncates towards zero. *)
Definition int_of_float (x : Q) : Z := Z.quot (Qnum x) (Zpos (Qden x)).

(** ** Deleting from a dictionary while going through a copy of its items

    Both bots do it: [for k, v in list(d.items()): if ...: del d[k]]. *)

Definition delete_if {A : Type} (p : string * A -> bool)
    (d : gmap string A) (item : string * A) : gmap string A :=
  if p item then delete item.1 d else d.

Module LinkGen.

(** One value of [link_data], as [generate_invite_link] builds it. *)
Record link_info : Type := LinkInfo {
  created_at : string;
  created_by : Z;
  expires_at : Z;
  uses : Z;
  max_uses : Z
}.

(** The bot object.  [data_file] stands for the content of the file
    ['invite_links.json'], which [save_data] rewrites wholesale. *)
Record TelegramGroupManagerBot : Type := Bot {
  link_data : gmap string link_info;
  data_file : gmap string link_info;
  pending_confirmations : gmap Z bool;
  pending_revokes : gmap Z bool
}.

(** [__init__]: the registry is what [load_data] reads, both dictionaries
    of pending users are empty. *)
Definition init (file : gmap string link_info) : TelegramGroupManagerBot :=
  {| link_data := file; data_file := file;
     pending_confirmations := ∅; pending_revokes := ∅ |}.

Definition set_link_data (d : gmap string link_info)
    (self : TelegramGroupManagerBot) : TelegramGroupManagerBot :=
  {| link_data := d; data_file := data_file self;
     pending_confirmations := pending_confirmations self;
     pending_revokes := pending_revokes self |}.

Definition set_pending_confirmations (p : gmap Z bool)
    (self : TelegramGroupManagerBot) : TelegramGroupManagerBot :=
  {| link_data := link_data self; data_file := data_file self;
     pending_confirmations := p;
     pending_revokes := pending_revokes self |}.

Definition set_pending_revokes (p : gmap Z bool)
    (self : TelegramGroupManagerBot) : TelegramGroupManagerBot :=
  {| link_data := link_data self; data_file := data_file self;
     pending_confirmations := pending_confirmations self;
     pending_revokes := p |}.

(** [save_data]: [json.dump] of [link_data] into the file. *)
Definition save_data (self : TelegramGroupManagerBot) : TelegramGroupManagerBot :=
  {| link_data := link_data self; data_file := link_data self;
     pending_confirmations := pending_confirmations self;
     pending_revokes := pending_revokes self |}.

(** The test of [list_links], [revoke_all_links] and
    [handle_pending_actions]:
    [info['expires_at'] > current_time and info['uses'] < info['max_uses']]. *)
Definition is_active (current_time : Q) (info : link_info) : bool :=
  Qltb current_time (inject_Z (expires_at info)) && (uses info <? max_uses info).

(** The items of [link_data] that pass the test, in the order of
    iteration of the dictionary. *)
Definition active_links (current_time : Q) (d : gmap string link_info)
    : list (string * link_info) :=
  filter (λ item, is_active current_time item.2 = true) (map_to_list d).

(** What a handler sends with [reply_text]. *)
Inductive reply : Type :=
  | OnlyAdmin
  | LinkGenerated (invite_link : string)
  | ErrorGeneratingLink
  | ActiveInviteLinks (links : gmap string link_info)
  | ErrorListingLinks
  | NoActiveLinksFound
  | PleaseSendLink
  | LinkRevoked
  | LinkNotFound
  | NoActiveLinksToRevoke
  | ConfirmRevokeAll (n : nat)
  | RevokedAll (revoked_count : nat)
  | OperationCancelled
  | StartHelp.

(** The state of the loop of [handle_pending_actions]. *)
Record revoke_loop : Type := RevokeLoop {
  loop_data : gmap string link_info;
  revoked_count : nat
}.

Section Handlers.

(** [config.py] is not part of the sources: its constants are taken as
    they are imported. *)
Variable ADMIN_USER_IDS : list string.
Variable LINK_EXPIRE_HOURS : Z.
Variable LINK_MEMBER_LIMIT : Z.

Definition is_admin (user_id : Z) : bool :=
  bool_decide (str user_id ∈ ADMIN_USER_IDS).

(** [generate_invite_link].  [create_chat_invite_link] is what the
    platform answers to the call with that member limit and expiry date:
    the new link, or [None] when the call raises. *)
Definition generate_invite_link (user_id : Z) (now : Q) (iso_now : string)
    (create_chat_invite_link : Z -> Z -> option string)
    (self : TelegramGroupManagerBot) : TelegramGroupManagerBot * reply :=
  if negb (is_admin user_id) then (self, OnlyAdmin)
  else
    let expire_date := int_of_float now + LINK_EXPIRE_HOURS * 3600 in
    match create_chat_invite_link LINK_MEMBER_LIMIT expire_date with
    | None => (self, ErrorGeneratingLink)
    | Some invite_link =>
        let info := {| created_at := iso_now; created_by := user_id;
                       expires_at := expire_date; uses := 0;
                       max_uses := LINK_MEMBER_LIMIT |} in
        (save_data (set_link_data (<[invite_link := info]> (link_data self)) self),
         LinkGenerated invite_link)
    end.

(** [list_links].  Each active link is laid out with
    [datetime.fromtimestamp(info['expires_at'])], which raises for a
    timestamp outside the dates the platform can show (a year after
    9999, for one); [fromtimestamp_raises] tells for which timestamps.
    The reply is given by the links it lists, whatever the order and the
    layout of its lines. *)
Definition list_links (user_id : Z) (current_time : Q)
    (fromtimestamp_raises : Z -> bool)
    (self : TelegramGroupManagerBot) : TelegramGroupManagerBot * reply :=
  if negb (is_admin user_id) then (self, OnlyAdmin)
  else
    let active := active_links current_time (link_data self) in
    if existsb (λ item, fromtimestamp_raises (expires_at item.2)) active
    then (self, ErrorListingLinks)
    else
      match active with
      | [] => (self, NoActiveLinksFound)
      | _ => (self, ActiveInviteLinks (list_to_map active))
      end.

(** [process_revoke_request].  The platform's answer is ignored
    ([except: pass]). *)
Definition process_revoke_request (link : string)
    (revoke_chat_invite_link : string -> api_result)
    (self : TelegramGroupManagerBot) : TelegramGroupManagerBot * reply :=
  match link_data self !! link with
  | Some _ =>
      let _ := revoke_chat_invite_link link in
      (save_data (set_link_data (delete link (link_data self)) self), LinkRevoked)
  | None => (self, LinkNotFound)
  end.

(** [revoke_link]; [args] is [context.args]. *)
Definition revoke_link (user_id : Z) (args : list string)
    (revoke_chat_invite_link : string -> api_result)
    (self : TelegramGroupManagerBot) : TelegramGroupManagerBot * reply :=
  if negb (is_admin user_id) then (self, OnlyAdmin)
  else
    match args with
    | link :: _ => process_revoke_request link revoke_chat_invite_link self
    | [] =>
        (set_pending_revokes (<[user_id := true]> (pending_revokes self)) self,
         PleaseSendLink)
    end.

(** [revoke_all_links]. *)
Definition revoke_all_links (user_id : Z) (current_time : Q)
    (self : TelegramGroupManagerBot) : TelegramGroupManagerBot * reply :=
  if negb (is_admin user_id) then (self, OnlyAdmin)
  else
    match active_links current_time (link_data self) with
    | [] => (self, NoActiveLinksToRevoke)
    | l =>
        (set_pending_confirmations
           (<[user_id := true]> (pending_confirmations self)) self,
         ConfirmRevokeAll (length l))
    end.

(** One turn of the loop of [handle_pending_actions] over
    [list(self.link_data.items())]. *)
Definition revoke_all_step (current_time : Q)
    (revoke_chat_invite_link : string -> api_result)
    (acc : revoke_loop) (item : string * link_info) : revoke_loop :=
  let '(link, info) := item in
  if is_active current_time info then
    {| loop_data := delete link (loop_data acc);
       revoked_count :=
         match revoke_chat_invite_link link with
         | ApiOk => S (revoked_count acc)
         | ApiTelegramError => revoked_count acc
         end |}
  else acc.

Definition revoke_all_loop (current_time : Q)
    (revoke_chat_invite_link : string -> api_result)
    (d : gmap string link_info) : revoke_loop :=
  foldl (revoke_all_step current_time revoke_chat_invite_link)
        {| loop_data := d; revoked_count := 0 |} (map_to_list d).

(** [handle_pending_actions]: the handler of a text message that is not a
    command.  It answers nothing when the user has nothing pending. *)
Definition handle_pending_actions (user_id : Z) (text : string)
    (current_time : Q) (revoke_chat_invite_link : string -> api_result)
    (self : TelegramGroupManagerBot) : TelegramGroupManagerBot * option reply :=
  match pending_confirmations self !! user_id with
  | Some _ =>
      let self1 :=
        set_pending_confirmations (delete user_id (pending_confirmations self)) self in
      if String.eqb (lower text) "yes" then
        let r := revoke_all_loop current_time revoke_chat_invite_link
                   (link_data self1) in
        (save_data (set_link_data (loop_data r) self1),
         Some (RevokedAll (revoked_count r)))
      else (self1, Some OperationCancelled)
  | None =>
      match pending_revokes self !! user_id with
      | Some _ =>
          let self1 :=
            set_pending_revokes (delete user_id (pending_revokes self)) self in
          let '(self2, r) :=
            process_revoke_request (strip text) revoke_chat_invite_link self1 in
          (self2, Some r)
      | None => (self, None)
      end
  end.

(** The updates the application routes to the bot ([main] registers one
    handler per command and [handle_pending_actions] for a text that is
    not a command), each with what the platform answers during it. *)
Inductive update : Type :=
  | Start (user_id : Z)
  | Link (user_id : Z) (now : Q) (iso_now : string)
         (create_chat_invite_link : Z -> Z -> option string)
  | ListLinks (user_id : Z) (current_time : Q)
              (fromtimestamp_raises : Z -> bool)
  | Revoke (user_id : Z) (args : list string)
           (revoke_chat_invite_link : string -> api_result)
  | RevokeAll (user_id : Z) (current_time : Q)
  | Text (user_id : Z) (text : string) (current_time : Q)
         (revoke_chat_invite_link : string -> api_result).

Definition handle (u : update) (self : TelegramGroupManagerBot)
    : TelegramGroupManagerBot * option reply :=
  match u with
  | Start _ => (self, Some StartHelp)
  | Link user_id now iso_now create =>
      let '(self', r) := generate_invite_link user_id now iso_now create self in
      (self', Some r)
  | ListLinks user_id now raises =>
      let '(self', r) := list_links user_id now raises self in (self', Some r)
  | Revoke user_id args api =>
      let '(self', r) := revoke_link user_id args api self in (self', Some r)
  | RevokeAll user_id now =>
      let '(self', r) := revoke_all_links user_id now self in (self', Some r)
  | Text user_id text now api => handle_pending_actions user_id text now api self
  end.

(** The bot after a sequence of updates. *)
Definition run (us : list update) (self : TelegramGroupManagerBot)
    : TelegramGroupManagerBot :=
  foldl (λ s u, (handle u s).1) self us.

(** The states the bot can be in: started on some file, then any updates. *)
Inductive reachable : TelegramGroupManagerBot -> Prop :=
  | reachable_init file : reachable (init file)
  | reachable_handle self u : reachable self -> reachable (handle u self).1.

End Handlers.

(** The links the loop of the confirmed revoke-all counts: active, and
    revoked by the platform. *)
Definition revoked_ok (current_time : Q)
    (revoke_chat_invite_link : string -> api_result)
    (item : string * link_info) : Prop :=
  is_active current_time item.2 = true ∧ revoke_chat_invite_link item.1 = ApiOk.

#[global] Instance revoked_ok_dec current_time api item :
  Decision (revoked_ok current_time api item).
Proof. unfold revoked_ok. apply _. Defined.

(** The texts that [lower] sends to ['yes']. *)
Definition yes_spellings : list string :=
  ["yes"; "yeS"; "yEs"; "yES"; "Yes"; "YeS"; "YEs"; "YES"]%string.

(** The user has something pending in one of the two dictionaries. *)
Definition awaiting_confirmation (self : TelegramGroupManagerBot) (user_id : Z) : Prop :=
  is_Some (pending_confirmations self !! user_id).

Definition awaiting_target (self : TelegramGroupManagerBot) (user_id : Z) : Prop :=
  is_Some (pending_revokes self !! user_id).

(** The user an update comes from, and whether it is the command that
    issues a link. *)
Definition update_user (u : update) : Z :=
  match u with
  | Start user_id | Link user_id _ _ _ | ListLinks user_id _ _
  | Revoke user_id _ _ | RevokeAll user_id _ | Text user_id _ _ _ => user_id
  end.

Definition is_link_command (u : update) : bool :=
  match u with Link _ _ _ _ => true | _ => false end.

(** *** A small registry to run the handlers on

    One admin (user 1); at time 1000 the link ["b"] is active, ["a"] has
    expired one second before and ["c"] is used up. *)

Definition example_admins : list string := ["1"%string].

Definition example_link (expires_at uses : Z) : link_info :=
  {| created_at := "2024-05-01T10:00:00"; created_by := 1;
     expires_at := expires_at; uses := uses; max_uses := 1 |}.

Definition example_links : gmap string link_info :=
  <["a"%string := example_link 999 0]>
    (<["b"%string := example_link 4600 0]>
       (<["c"%string := example_link 5000 1]> ∅)).

Definition example_now : Q := inject_Z 1000.

(** User 1 has asked for the revocation of all links. *)
Definition example_confirming : TelegramGroupManagerBot :=
  {| link_data := example_links; data_file := example_links;
     pending_confirmations := {[ 1 := true ]}; pending_revokes := ∅ |}.

(** A platform on which every revocation fails, and one that mints the
    link ["L"]. *)
Definition revoke_fails (link : string) : api_result := ApiTelegramError.

Definition mint_L (member_limit expire_date : Z) : option string := Some "L"%string.

Definition mint_fails (member_limit expire_date : Z) : option string := None.

(** [datetime.fromtimestamp] where the local time is UTC: it raises
    before year 1 and after year 9999. *)
Definition raises_outside_years_1_9999 (timestamp : Z) : bool :=
  (timestamp <? -62135596800) || (253402300799 <? timestamp).

(** The admin issues a link, asks to revoke one link without naming it,
    then asks to revoke all links. *)
Definition example_two_requests : list update :=
  [Link 1 example_now "2024-05-01T10:00:00" mint_L;
   Revoke 1 [] revoke_fails;
   RevokeAll 1 example_now].

(** The bot after them, started on an empty file with links that last 24
    hours and admit one member. *)
Definition example_both_pending : TelegramGroupManagerBot :=
  run example_admins 24 1 example_two_requests (init ∅).

(** User 1 has asked to revoke one link without naming it. *)
Definition example_targeting : TelegramGroupManagerBot :=
  {| link_data := example_links; data_file := example_links;
     pending_confirmations := ∅; pending_revokes := {[ 1 := true ]} |}.

Definition example_later : Q := inject_Z 2000.

End LinkGen.

(** ** [main.py]

    A [datetime] is naive and has a resolution of one microsecond; it is
    the number of microseconds since a fixed origin, and [timedelta]
    arithmetic and comparison are those of integers.  A join date is
    written with [isoformat] and read back with [fromisoformat]; the
    registry is given with the instants those strings denote. *)

Module Main.

(** [timedelta(days=n)]. *)
Definition timedelta_days (n : Z) : Z := n * 86400 * 1000000.

(** [telegram.User], with the fields that decide what is stored. *)
Record User : Type := MkUser {
  id : Z;
  is_bot : bool
}.

(** [update.chat_member]: the chat, and the user and status of
    [new_chat_member]. *)
Record ChatMemberUpdated : Type := MkChatMemberUpdated {
  chat_id : Z;
  new_chat_member_user : User;
  new_chat_member_status : string
}.

(** [update.message]: the chat and [new_chat_members]. *)
Record Message : Type := MkMessage {
  message_chat_id : Z;
  new_chat_members : list User
}.

Record Update : Type := MkUpdate {
  chat_member : option ChatMemberUpdated;
  message : option Message
}.

(** The bot object.  [data_file] stands for the content of
    ['member_join_dates.json']. *)
Record MembershipTrackerBot : Type := Bot {
  join_data : gmap string (gmap string Z);
  data_file : gmap string (gmap string Z)
}.

Definition init (file : gmap string (gmap string Z)) : MembershipTrackerBot :=
  {| join_data := file; data_file := file |}.

Definition set_join_data (d : gmap string (gmap string Z))
    (self : MembershipTrackerBot) : MembershipTrackerBot :=
  {| join_data := d; data_file := data_file self |}.

Definition save_data (self : MembershipTrackerBot) : MembershipTrackerBot :=
  {| join_data := join_data self; data_file := join_data self |}.

(** The join date stored for a member of a chat, if any. *)
Definition joined_at (d : gmap string (gmap string Z)) (chat user : string)
    : option Z :=
  d !! chat ≫= (λ members, members !! user).

(** [if chat_id not in self.join_data: self.join_data[chat_id] = {}] *)
Definition ensure_chat (chat : string) (d : gmap string (gmap string Z))
    : gmap string (gmap string Z) :=
  match d !! chat with
  | Some _ => d
  | None => <[chat := ∅]> d
  end.

(** [self.join_data[chat_id][user_id] = join_date]; the dictionary of the
    chat is there when the handler does it. *)
Definition set_join_date (chat user : string) (join_date : Z)
    (d : gmap string (gmap string Z)) : gmap string (gmap string Z) :=
  alter (<[user := join_date]>) chat d.

(** [del self.join_data[chat_id][user_id]] *)
Definition del_join_date (chat user : string)
    (d : gmap string (gmap string Z)) : gmap string (gmap string Z) :=
  alter (delete user) chat d.

(** One turn of the loop over [update.message.new_chat_members]; the
    second component counts the join dates taken so far. *)
Definition track_step (clock : nat -> Z) (chat : string)
    (acc : gmap string (gmap string Z) * nat) (new_member : User)
    : gmap string (gmap string Z) * nat :=
  if is_bot new_member then acc
  else (set_join_date chat (str (id new_member)) (clock acc.2) acc.1, S acc.2).

(** [track_new_member].  [clock k] is what the [k]-th
    [join_date = datetime.now()] of the call reads. *)
Definition track_new_member (clock : nat -> Z) (update : Update)
    (self : MembershipTrackerBot) : MembershipTrackerBot :=
  match chat_member update with
  | Some cm =>
      let user := new_chat_member_user cm in
      let chat := str (chat_id cm) in
      if String.eqb (new_chat_member_status cm) "member" then
        let d := ensure_chat chat (join_data self) in
        save_data (set_join_data (set_join_date chat (str (id user)) (clock 0%nat) d) self)
      else self
  | None =>
      match message update with
      | Some m =>
          match new_chat_members m with
          | [] => self
          | members =>
              let chat := str (message_chat_id m) in
              let d := ensure_chat chat (join_data self) in
              save_data (set_join_data (foldl (track_step clock chat) (d, 0%nat) members).1 self)
          end
      | None => self
      end
  end.

(** The state of the loops of [remove_expired_members]. *)
Record removal : Type := Removal {
  removal_data : gmap string (gmap string Z);
  removal_count : nat;
  error_count : nat
}.

(** What the job reports at its end. *)
Record summary : Type := Summary {
  members_removed : nat;
  errors : nat
}.

(** [join_date < threshold_date] *)
Definition is_expired (threshold_date join_date : Z) : bool :=
  join_date <? threshold_date.


Section Removal.

(** What the platform answers to [ban_chat_member] and to
    [unban_chat_member] for a chat and a user. *)
Variable ban_chat_member : string -> string -> api_result.
Variable unban_chat_member : string -> string -> api_result.

(** The body of the [try] for one expired member: the ban, then the
    unban when the ban returned. *)
Definition kick (chat user : string) : api_result :=
  match ban_chat_member chat user with
  | ApiOk => unban_chat_member chat user
  | ApiTelegramError => ApiTelegramError
  end.

(** One turn of the inner loop, over the members of a chat. *)
Definition remove_member_step (threshold_date : Z) (chat : string)
    (acc : removal) (item : string * Z) : removal :=
  let '(user, join_date) := item in
  if is_expired threshold_date join_date then
    match kick chat user with
    | ApiOk =>
        {| removal_data := del_join_date chat user (removal_data acc);
           removal_count := S (removal_count acc);
           error_count := error_count acc |}
    | ApiTelegramError =>
        {| removal_data := removal_data acc;
           removal_count := removal_count acc;
           error_count := S (error_count acc) |}
    end
  else acc.

(** One turn of the outer loop.  [members] is the dictionary of the chat
    itself, not a copy: its items are read when the turn starts. *)
Definition remove_chat_step (threshold_date : Z)
    (acc : removal) (item : string * gmap string Z) : removal :=
  let chat := item.1 in
  let members := default ∅ (removal_data acc !! chat) in
  foldl (remove_member_step threshold_date chat) acc (map_to_list members).

(** [remove_expired_members]; [now] is what [datetime.now()] reads when
    the threshold is computed. *)
Definition remove_expired_members (now : Z) (self : MembershipTrackerBot)
    : MembershipTrackerBot * summary :=
  let threshold_date := now - timedelta_days 30 in
  let r := foldl (remove_chat_step threshold_date)
                 {| removal_data := join_data self;
                    removal_count := 0; error_count := 0 |}
                 (map_to_list (join_data self)) in
  (save_data (set_join_data (removal_data r) self),
   {| members_removed := removal_count r; errors := error_count r |}).

(** The member is expired and the platform removes it. *)
Definition removable (threshold_date : Z) (chat : string)
    (item : string * Z) : bool :=
  is_expired threshold_date item.2 && api_ok (kick chat item.1).

(** The expired members of some chats, chat by chat, and those of the
    registry. *)
Definition expired_in (threshold_date : Z)
    (chats : list (string * gmap string Z)) : list (string * (string * Z)) :=
  item ← chats;
  (λ m, (item.1, m)) <$>
    filter (λ m, is_expired threshold_date m.2 = true) (map_to_list item.2).

Definition expired_members (threshold_date : Z)
    (d : gmap string (gmap string Z)) : list (string * (string * Z)) :=
  expired_in threshold_date (map_to_list d).

(** The platform removed the member: both calls returned. *)
Definition kicked (entry : string * (string * Z)) : Prop :=
  kick entry.1 entry.2.1 = ApiOk.

#[global] Instance kicked_dec entry : Decision (kicked entry).
Proof. unfold kicked. apply _. Defined.

End Removal.

(** *** A small registry to run the job on

    Chat [-100] at day 100: user 7 joined 31 days ago, user 8 joined 29
    days ago, user 9 joined exactly 30 days ago and user 10 joined 40 days
    ago. *)

Definition example_now : Z := timedelta_days 100.

Definition example_members : gmap string Z :=
  <["7"%string := example_now - timedelta_days 31]>
    (<["8"%string := example_now - timedelta_days 29]>
       (<["9"%string := example_now - timedelta_days 30]>
          (<["10"%string := example_now - timedelta_days 40]> ∅))).

Definition example_bot : MembershipTrackerBot :=
  init {[ "-100"%string := example_members ]}.

(** A platform that accepts every call, and one that refuses to ban
    user 10. *)
Definition api_accepts (chat user : string) : api_result := ApiOk.

Definition ban_refuses_10 (chat user : string) : api_result :=
  if String.eqb user "10" then ApiTelegramError else ApiOk.

(** A bot that is added to chat [-100], in a message with
    [new_chat_members]. *)
Definition example_robot : User := {| id := 42; is_bot := true |}.


Definition example_clock (k : nat) : Z := example_now + Z.of_nat k.

(** *** The commands of [main.py] *)

(** [timedelta(hours=n)], and the midnight that starts the day of a
    [datetime]: the origin of the count of microseconds is itself a
    midnight, so this is [datetime(now.year, now.month, now.day, 0, 0, 0)]. *)
Definition timedelta_hours (n : Z) : Z := n * 3600 * 1000000.

Definition midnight (now : Z) : Z := now - now mod timedelta_days 1.

(** [datetime(now.year, now.month, now.day, 2, 0, 0) + timedelta(days=1)]
    of [status_command]. *)
Definition next_cleanup (now : Z) : Z :=
  midnight now + timedelta_hours 2 + timedelta_days 1.

(** [len(self.join_data.get(chat_id, {}))] *)
Definition member_count (d : gmap string (gmap string Z)) (chat : string) : nat :=
  size (default ∅ (d !! chat)).

(** [(datetime.now() - join_dt).days]: a [timedelta] keeps its days as
    the floor of the quotient by one day. *)
Definition days_in_group (now join_date : Z) : Z :=
  (now - join_date) / timedelta_days 1.

(** What a command sends with [reply_text]. *)
Inductive reply : Type :=
  | OnlyAdmin
  | ManualRemovalCompleted
  | Initialized (count : nat)
  | InitError
  | BotStatus (member_count : nat) (next_cleanup : Z)
  | DebugInfo (member_count : nat) (shown : list (string * Z * Z))
              (more : option nat)
  | DebugNoMembers (member_count : nat)
  | Help.

(** [status_command] *)
Definition status_command (chat : Z) (now : Z) (self : MembershipTrackerBot)
    : reply :=
  BotStatus (member_count (join_data self) (str chat)) (next_cleanup now).

(** [debug_command]: the first ten items of the chat, each with its days
    in the group, and how many more there are.  [clock k] is what
    [datetime.now()] reads for the [k]-th item. *)
Definition debug_command (chat : Z) (clock : nat -> Z)
    (self : MembershipTrackerBot) : reply :=
  let count := member_count (join_data self) (str chat) in
  match join_data self !! str chat with
  | Some members =>
      if bool_decide (members = ∅) then DebugNoMembers count
      else
        DebugInfo count
          (imap (λ k item, (item.1, item.2, days_in_group (clock k) item.2))
                (take 10 (map_to_list members)))
          (if (10 <? size members)%nat then Some (size members - 10)%nat
           else None)
  | None => DebugNoMembers count
  end.

(** One turn of the loop of [init_members] over the fetched members. *)
Definition init_step (chat : string) (current_time : Z)
    (d : gmap string (gmap string Z)) (member : User)
    : gmap string (gmap string Z) :=
  if is_bot member then d
  else set_join_date chat (str (id member)) current_time d.

Section Commands.

Variable ADMIN_USER_IDS : list string.

(** [is_admin]; the callers pass [str(update.effective_user.id)]. *)
Definition is_admin (user_id : string) : bool :=
  bool_decide (user_id ∈ ADMIN_USER_IDS).

(** [manual_remove_command] *)
Definition manual_remove_command (user_id : Z) (now : Z)
    (ban_chat_member unban_chat_member : string -> string -> api_result)
    (self : MembershipTrackerBot) : MembershipTrackerBot * reply :=
  if negb (is_admin (str user_id)) then (self, OnlyAdmin)
  else
    ((remove_expired_members ban_chat_member unban_chat_member now self).1,
     ManualRemovalCompleted).

(** [init_members].  [get_chat_members] is what the platform answers: the
    users of the members of the chat, or [None] when the call or the
    iteration raises. *)
Definition init_members (user_id : Z) (chat : Z)
    (get_chat_members : option (list User)) (current_time : Z)
    (self : MembershipTrackerBot) : MembershipTrackerBot * reply :=
  if negb (is_admin (str user_id)) then (self, OnlyAdmin)
  else
    match get_chat_members with
    | None => (self, InitError)
    | Some members =>
        let d := ensure_chat (str chat) (join_data self) in
        let d' := foldl (init_step (str chat) current_time) d members in
        (save_data (set_join_data d' self),
         Initialized (member_count d' (str chat)))
    end.

(** What reaches the bot: the joins, the daily job and the commands, each
    with what the clock reads and the platform answers during it. *)
Inductive event : Type :=
  | Joined (clock : nat -> Z) (update : Update)
  | DailyJob (now : Z)
             (ban_chat_member unban_chat_member : string -> string -> api_result)
  | RemoveNow (user_id : Z) (now : Z)
              (ban_chat_member unban_chat_member : string -> string -> api_result)
  | InitMembers (user_id : Z) (chat : Z) (get_chat_members : option (list User))
                (current_time : Z)
  | Status (chat : Z) (now : Z)
  | Debug (chat : Z) (clock : nat -> Z)
  | StartCommand.

Definition handle (e : event) (self : MembershipTrackerBot)
    : MembershipTrackerBot * option reply :=
  match e with
  | Joined clock update => (track_new_member clock update self, None)
  | DailyJob now ban unban =>
      ((remove_expired_members ban unban now self).1, None)
  | RemoveNow user_id now ban unban =>
      let '(self', r) := manual_remove_command user_id now ban unban self in
      (self', Some r)
  | InitMembers user_id chat fetched current_time =>
      let '(self', r) := init_members user_id chat fetched current_time self in
      (self', Some r)
  | Status chat now => (self, Some (status_command chat now self))
  | Debug chat clock => (self, Some (debug_command chat clock self))
  | StartCommand => (self, Some Help)
  end.

Inductive reachable : MembershipTrackerBot -> Prop :=
  | reachable_init file : reachable (init file)
  | reachable_handle self e : reachable self -> reachable (handle e self).1.

End Commands.

(** The fetched member is one for which the loop of [init_members]
    writes at [user]. *)
Definition fetched_as (user : string) (member : User) : Prop :=
  is_bot member = false ∧ str (id member) = user.

#[global] Instance fetched_as_dec user member : Decision (fetched_as user member).
Proof. unfold fetched_as. apply _. Defined.

Definition example_admins : list string := ["1"%string].

(** A message that adds a bot and user 5 to chat [-100]. *)
Definition example_newcomers : Update :=
  {| chat_member := None;
     message :=
       Some {| message_chat_id := -100;
               new_chat_members := [example_robot;
                                    {| id := 5; is_bot := false |}] |} |}.

(** A [chat_member] update of a user who is not a bot. *)
Definition member_update (chat : Z) (user : Z) (status : string) : Update :=
  {| chat_member :=
       Some {| chat_id := chat;
               new_chat_member_user := {| id := user; is_bot := false |};
               new_chat_member_status := status |};
     message := None |}.

End Main.

Module LinkGenProps.
Import LinkGen.

(** *** Lemmas on the loop of the confirmed revoke-all *)

Section RevokeAllLoop.

Variable current_time : Q.
Variable revoke_chat_invite_link : string -> api_result.

#[local] Abbreviation step := (revoke_all_step current_time revoke_chat_invite_link).

#[local] Abbreviation revoked_ok := (LinkGen.revoked_ok current_time revoke_chat_invite_link).

Lemma revoke_all_step_gone acc item k :
  loop_data acc !! k = None -> loop_data (step acc item) !! k = None.
Proof.
  destruct item as [link info]. unfold revoke_all_step.
  destruct (is_active current_time info); simpl; [|done].
  intros H. rewrite lookup_delete. by case_decide.
Qed.

Lemma revoke_all_fold_gone l acc k :
  loop_data acc !! k = None -> loop_data (foldl step acc l) !! k = None.
Proof.
  revert acc. induction l as [|item l IH]; intros acc H; simpl; [done|].
  apply IH. by apply revoke_all_step_gone.
Qed.

Lemma revoke_all_fold_active l acc k info :
  (k, info) ∈ l -> is_active current_time info = true ->
  loop_data (foldl step acc l) !! k = None.
Proof.
  revert acc. induction l as [|item l IH]; intros acc Hin Hact.
  - by apply elem_of_nil in Hin.
  - apply elem_of_cons in Hin as [<-|Hin]; simpl.
    + apply revoke_all_fold_gone. unfold revoke_all_step. rewrite Hact. simpl.
      apply lookup_delete_eq.
    + by apply IH.
Qed.

Lemma revoke_all_fold_inactive l acc k :
  (forall info, (k, info) ∈ l -> is_active current_time info = false) ->
  loop_data (foldl step acc l) !! k = loop_data acc !! k.
Proof.
  revert acc. induction l as [|[link info] l IH]; intros acc H; simpl; [done|].
  rewrite IH by (intros i Hi; apply H; by right).
  unfold revoke_all_step.
  destruct (is_active current_time info) eqn:Hact; simpl; [|done].
  apply lookup_delete_ne. intros ->.
  specialize (H info (list_elem_of_here _ _)). congruence.
Qed.

Lemma revoke_all_fold_count l acc :
  revoked_count (foldl step acc l)
  = (revoked_count acc + length (filter revoked_ok l))%nat.
Proof.
  revert acc. induction l as [|[link info] l IH]; intros acc; simpl; [lia|].
  rewrite IH. unfold revoke_all_step.
  destruct (is_active current_time info) eqn:Hact; simpl.
  - destruct (revoke_chat_invite_link link) eqn:Hapi; simpl.
    + rewrite filter_cons_True by (split; done). simpl. lia.
    + rewrite filter_cons_False; [lia|]. intros [_ H]. simpl in H. congruence.
  - rewrite filter_cons_False; [lia|]. intros [H _]. simpl in H. congruence.
Qed.

Lemma revoke_all_fold_size l acc :
  NoDup l.*1 ->
  (forall k info, (k, info) ∈ l -> loop_data acc !! k = Some info) ->
  (size (loop_data (foldl step acc l))
   + length (filter (λ item, is_active current_time item.2 = true) l))%nat
  = size (loop_data acc).
Proof.
  revert acc. induction l as [|[link info] l IH]; intros acc Hnd Hin.
  - simpl. lia.
  - rewrite fmap_cons in Hnd. apply NoDup_cons in Hnd as [Hfresh Hnd].
    assert (Hlink : loop_data acc !! link = Some info) by (apply Hin; left).
    cbn [foldl].
    destruct (is_active current_time info) eqn:Hact.
    + rewrite filter_cons_True by done. cbn [length].
      rewrite Nat.add_succ_r, IH; [| done |].
      * unfold revoke_all_step. rewrite Hact. cbn [loop_data].
        rewrite map_size_delete, Hlink.
        assert (size (loop_data acc) ≠ 0)%nat; [|lia].
        apply map_size_ne_0_lookup_2 with link. by eexists.
      * intros k i Hk. unfold revoke_all_step. rewrite Hact. cbn [loop_data].
        rewrite lookup_delete_ne; [apply Hin; by right|].
        intros ->. apply Hfresh. apply list_elem_of_fmap. by exists (k, i).
    + rewrite filter_cons_False by (simpl; congruence).
      rewrite IH; [|done|].
      * unfold revoke_all_step. by rewrite Hact.
      * intros k i Hk. unfold revoke_all_step. rewrite Hact.
        apply Hin. by right.
Qed.

(** The loop over a whole registry. *)

Lemma revoke_all_loop_active d link info :
  d !! link = Some info -> is_active current_time info = true ->
  loop_data (revoke_all_loop current_time revoke_chat_invite_link d) !! link = None.
Proof.
  intros Hd Hact. unfold revoke_all_loop.
  apply revoke_all_fold_active with info; [|done].
  by apply elem_of_map_to_list.
Qed.

Lemma revoke_all_loop_inactive d link info :
  d !! link = Some info -> is_active current_time info = false ->
  loop_data (revoke_all_loop current_time revoke_chat_invite_link d) !! link
  = Some info.
Proof.
  intros Hd Hact. unfold revoke_all_loop.
  rewrite revoke_all_fold_inactive; [done|].
  intros i Hi. apply elem_of_map_to_list in Hi. congruence.
Qed.

Lemma revoke_all_loop_absent d link :
  d !! link = None ->
  loop_data (revoke_all_loop current_time revoke_chat_invite_link d) !! link = None.
Proof. intros Hd. unfold revoke_all_loop. by apply revoke_all_fold_gone. Qed.

Lemma revoke_all_loop_filter d :
  loop_data (revoke_all_loop current_time revoke_chat_invite_link d)
  = filter (λ item, is_active current_time item.2 = false) d.
Proof.
  apply map_eq. intros link.
  destruct (d !! link) as [info|] eqn:Hd.
  - destruct (is_active current_time info) eqn:Hact.
    + rewrite (revoke_all_loop_active d link info) by done.
      symmetry. apply map_lookup_filter_None. right. intros x Hx. simpl.
      congruence.
    + rewrite (revoke_all_loop_inactive d link info) by done.
      symmetry. by apply map_lookup_filter_Some.
  - rewrite revoke_all_loop_absent by done.
    symmetry. apply map_lookup_filter_None. by left.
Qed.

Lemma revoke_all_loop_count d :
  revoked_count (revoke_all_loop current_time revoke_chat_invite_link d)
  = length (filter (λ item, revoke_chat_invite_link item.1 = ApiOk)
                   (active_links current_time d)).
Proof.
  unfold revoke_all_loop, active_links.
  rewrite revoke_all_fold_count. simpl.
  rewrite list_filter_filter. f_equal. apply list_filter_iff.
  intros [link info]. unfold revoked_ok. simpl. tauto.
Qed.

Lemma revoke_all_loop_size d :
  (size (loop_data (revoke_all_loop current_time revoke_chat_invite_link d))
   + length (active_links current_time d))%nat = size d.
Proof.
  unfold revoke_all_loop, active_links.
  rewrite revoke_all_fold_size; [done| apply NoDup_fst_map_to_list |].
  intros k info Hk. simpl. by apply elem_of_map_to_list.
Qed.

End RevokeAllLoop.

(** *** The test for an active link *)

Lemma Qltb_lt x y : Qltb x y = true <-> (x < y)%Q.
Proof.
  unfold Qltb. rewrite negb_true_iff. split.
  - intros H. apply Qnot_le_lt. intros Hle.
    apply Qle_bool_iff in Hle. congruence.
  - intros H. destruct (Qle_bool y x) eqn:E; [|done].
    apply Qle_bool_iff in E. by apply Qlt_not_le in H.
Qed.

Lemma is_active_spec current_time info :
  is_active current_time info = true
  <-> (current_time < inject_Z (expires_at info))%Q ∧ uses info < max_uses info.
Proof.
  unfold is_active. rewrite andb_true_iff, Qltb_lt, Z.ltb_lt. tauto.
Qed.

Lemma is_active_false current_time info :
  is_active current_time info = false
  <-> ¬ ((current_time < inject_Z (expires_at info))%Q
         ∧ uses info < max_uses info).
Proof. rewrite <- is_active_spec. by destruct (is_active current_time info). Qed.

Lemma elem_of_active_links current_time d link info :
  (link, info) ∈ active_links current_time d
  <-> d !! link = Some info ∧ is_active current_time info = true.
Proof.
  unfold active_links. rewrite list_elem_of_filter, elem_of_map_to_list.
  simpl. tauto.
Qed.

Lemma NoDup_active_links current_time d : NoDup (active_links current_time d).
Proof. apply NoDup_filter, NoDup_map_to_list. Qed.

(** *** The confirmation word *)

Lemma lower_char_y c : lower_char c = "y"%char -> c = "y"%char ∨ c = "Y"%char.
Proof.
  destruct c as [[] [] [] [] [] [] [] []]; vm_compute; intros H;
    try discriminate H; auto.
Qed.

Lemma lower_char_e c : lower_char c = "e"%char -> c = "e"%char ∨ c = "E"%char.
Proof.
  destruct c as [[] [] [] [] [] [] [] []]; vm_compute; intros H;
    try discriminate H; auto.
Qed.

Lemma lower_char_s c : lower_char c = "s"%char -> c = "s"%char ∨ c = "S"%char.
Proof.
  destruct c as [[] [] [] [] [] [] [] []]; vm_compute; intros H;
    try discriminate H; auto.
Qed.

Lemma lower_yes text : lower text = "yes"%string <-> text ∈ yes_spellings.
Proof.
  split.
  - destruct text as [|c1 [|c2 [|c3 [|c4 t]]]]; simpl; try discriminate.
    intros H. injection H as H1 H2 H3.
    apply lower_char_y in H1. apply lower_char_e in H2.
    apply lower_char_s in H3. unfold yes_spellings.
    destruct H1 as [-> | ->], H2 as [-> | ->], H3 as [-> | ->];
      repeat first [ apply list_elem_of_here | apply list_elem_of_further ].
  - unfold yes_spellings. intros H.
    repeat (apply elem_of_cons in H as [-> | H]; [reflexivity|]).
    by apply elem_of_nil in H.
Qed.

Lemma length_lower s : String.length (lower s) = String.length s.
Proof. induction s as [|c s IH]; simpl; congruence. Qed.

Lemma length_append (s1 s2 : string) :
  String.length (s1 +:+ s2) = (String.length s1 + String.length s2)%nat.
Proof. induction s1 as [|c s1 IH]; simpl; [done | by rewrite IH]. Qed.

(** *** The handlers *)

Section HandlerFacts.

Variable ADMIN_USER_IDS : list string.
Variable LINK_EXPIRE_HOURS : Z.
Variable LINK_MEMBER_LIMIT : Z.

#[local] Abbreviation is_admin := (LinkGen.is_admin ADMIN_USER_IDS).
#[local] Abbreviation handle :=
  (LinkGen.handle ADMIN_USER_IDS LINK_EXPIRE_HOURS LINK_MEMBER_LIMIT).
#[local] Abbreviation reachable :=
  (LinkGen.reachable ADMIN_USER_IDS LINK_EXPIRE_HOURS LINK_MEMBER_LIMIT).
#[local] Abbreviation run :=
  (LinkGen.run ADMIN_USER_IDS LINK_EXPIRE_HOURS LINK_MEMBER_LIMIT).

Lemma reachable_run us self : reachable self -> reachable (run us self).
Proof.
  revert self. induction us as [|u us IH]; intros self H; simpl; [done|].
  apply IH. by constructor.
Qed.

Lemma process_revoke_request_pending link api self :
  pending_confirmations (process_revoke_request link api self).1
  = pending_confirmations self
  ∧ pending_revokes (process_revoke_request link api self).1
    = pending_revokes self.
Proof. unfold process_revoke_request. by destruct (link_data self !! link). Qed.

(** What a text message does to the two dictionaries of pending users. *)
Lemma handle_pending_actions_confirming user_id text now api self :
  awaiting_confirmation self user_id ->
  let self' := (handle_pending_actions user_id text now api self).1 in
  pending_confirmations self' = delete user_id (pending_confirmations self)
  ∧ pending_revokes self' = pending_revokes self.
Proof.
  intros [b Hb]. unfold handle_pending_actions. rewrite Hb.
  by destruct (String.eqb (lower text) "yes").
Qed.

Lemma handle_pending_actions_not_confirming user_id text now api self :
  ¬ awaiting_confirmation self user_id ->
  let self' := (handle_pending_actions user_id text now api self).1 in
  pending_confirmations self' = pending_confirmations self
  ∧ pending_revokes self' = delete user_id (pending_revokes self).
Proof.
  intros Hnot. unfold handle_pending_actions.
  destruct (pending_confirmations self !! user_id) eqn:Hc.
  { exfalso. apply Hnot. by eexists. }
  destruct (pending_revokes self !! user_id) eqn:Hr; simpl.
  - pose proof (process_revoke_request_pending (strip text) api
      (set_pending_revokes (delete user_id (pending_revokes self)) self)) as [H1 H2].
    destruct (process_revoke_request _ _ _) as [self2 r]. simpl in *. done.
  - split; [done|]. symmetry. by apply delete_id.
Qed.

(** Only an admin ever has something pending. *)
Lemma reachable_pending_admin self :
  reachable self ->
  forall user_id,
    awaiting_confirmation self user_id ∨ awaiting_target self user_id ->
    is_admin user_id = true.
Proof.
  unfold awaiting_confirmation, awaiting_target.
  induction 1 as [file | self u Hreach IH]; intros user_id.
  - simpl. rewrite !lookup_empty. intros [[? ?]|[? ?]]; done.
  - destruct u as [uid | uid now iso create | uid now | uid args api
                  | uid now | uid text now api]; simpl.
    + apply IH.
    + unfold generate_invite_link.
      destruct (LinkGen.is_admin ADMIN_USER_IDS uid); simpl; [|apply IH].
      destruct (create _ _); simpl; apply IH.
    + unfold list_links.
      destruct (LinkGen.is_admin ADMIN_USER_IDS uid); simpl; [|apply IH].
      destruct (existsb _ _); simpl; [apply IH|].
      destruct (active_links _ _); simpl; apply IH.
    + unfold revoke_link.
      destruct (LinkGen.is_admin ADMIN_USER_IDS uid) eqn:Hadm; simpl; [|apply IH].
      destruct args as [|link args]; simpl.
      * rewrite lookup_insert. case_decide as Heq; [by subst|apply IH].
      * destruct (process_revoke_request_pending link api self) as [H1 H2].
        destruct (process_revoke_request link api self) as [self2 r].
        simpl in *. rewrite H1, H2. apply IH.
    + unfold revoke_all_links.
      destruct (LinkGen.is_admin ADMIN_USER_IDS uid) eqn:Hadm; simpl; [|apply IH].
      destruct (active_links _ _); simpl; [apply IH|].
      rewrite lookup_insert. case_decide as Heq; [by subst|apply IH].
    + destruct (decide (awaiting_confirmation self uid)) as [Hc|Hc].
      * destruct (handle_pending_actions_confirming uid text now api self Hc)
          as [H1 H2].
        rewrite H1, H2. intros [[b Hb]|Hr]; apply IH.
        -- left. apply lookup_delete_Some in Hb as [_ Hb]. by eexists.
        -- by right.
      * destruct (handle_pending_actions_not_confirming uid text now api self Hc)
          as [H1 H2].
        rewrite H1, H2. intros [Hcc|[b Hb]]; apply IH.
        -- by left.
        -- right. apply lookup_delete_Some in Hb as [_ Hb]. by eexists.
Qed.

(** No handler changes a record that it keeps: a record found after an
    update is the one found before, or the one just issued. *)
Lemma handle_keeps_records u self link info info' :
  link_data self !! link = Some info ->
  link_data (handle u self).1 !! link = Some info' ->
  info' = info
  ∨ (uses info' = 0
     ∧ exists user_id now iso create,
         u = Link user_id now iso create
         ∧ create LINK_MEMBER_LIMIT (int_of_float now + LINK_EXPIRE_HOURS * 3600)
           = Some link).
Proof.
  intros Hbefore.
  destruct u as [uid | uid now iso create | uid now | uid args api
                | uid now | uid text now api]; simpl.
  - intros. left. congruence.
  - unfold generate_invite_link.
    destruct (LinkGen.is_admin ADMIN_USER_IDS uid); simpl;
      [|intros; left; congruence].
    destruct (create _ _) as [tok|] eqn:Hmint; simpl;
      [|intros; left; congruence].
    rewrite lookup_insert. case_decide as Heq.
    + subst tok. intros [= <-]. right. split; [done|]. by exists uid, now, iso, create.
    + intros. left. congruence.
  - unfold list_links.
    destruct (LinkGen.is_admin ADMIN_USER_IDS uid); simpl;
      [|intros; left; congruence].
    destruct (existsb _ _); simpl; [intros; left; congruence|].
    destruct (active_links _ _); simpl; intros; left; congruence.
  - unfold revoke_link.
    destruct (LinkGen.is_admin ADMIN_USER_IDS uid); simpl;
      [|intros; left; congruence].
    destruct args as [|l args]; simpl; [intros; left; congruence|].
    unfold process_revoke_request.
    destruct (link_data self !! l); simpl; [|intros; left; congruence].
    intros H. apply lookup_delete_Some in H as [_ H]. left. congruence.
  - unfold revoke_all_links.
    destruct (LinkGen.is_admin ADMIN_USER_IDS uid); simpl;
      [|intros; left; congruence].
    destruct (active_links _ _); simpl; intros; left; congruence.
  - unfold handle_pending_actions.
    destruct (pending_confirmations self !! uid).
    + destruct (String.eqb (lower text) "yes"); simpl;
        [|intros; left; congruence].
      rewrite revoke_all_loop_filter. intros H.
      apply map_lookup_filter_Some in H as [H _]. left. congruence.
    + destruct (pending_revokes self !! uid); simpl; [|intros; left; congruence].
      unfold process_revoke_request. simpl.
      destruct (link_data self !! strip text); simpl; [|intros; left; congruence].
      intros H. apply lookup_delete_Some in H as [_ H]. left. congruence.
Qed.

(** C1 (as the code has it).  A confirmed revoke-all deletes exactly the
    links that are active at that time, leaves every other record as it
    was, saves the registry, and reports the number of active links whose
    revocation the platform accepted: at most the number of active links,
    and that number when every call succeeds. *)
Theorem C1_revoke_all_reports_platform_successes user_id text now api self :
  awaiting_confirmation self user_id ->
  lower text = "yes"%string ->
  let self' := (handle_pending_actions user_id text now api self).1 in
  let active := active_links now (link_data self) in
  let successes := filter (λ item, api item.1 = ApiOk) active in
  (forall link info, link_data self !! link = Some info ->
     is_active now info = true -> link_data self' !! link = None)
  ∧ (forall link info, link_data self !! link = Some info ->
       is_active now info = false -> link_data self' !! link = Some info)
  ∧ (forall link, link_data self !! link = None -> link_data self' !! link = None)
  ∧ (size (link_data self') + length active)%nat = size (link_data self)
  ∧ data_file self' = link_data self'
  ∧ (handle_pending_actions user_id text now api self).2
    = Some (RevokedAll (length successes))
  ∧ (length successes <= length active)%nat
  ∧ ((forall item, item ∈ active -> api item.1 = ApiOk) ->
     length successes = length active).
Proof.
  intros [b Hb] Hyes. unfold handle_pending_actions. rewrite Hb, Hyes. simpl.
  split_and!.
  - intros link info. apply revoke_all_loop_active.
  - intros link info. apply revoke_all_loop_inactive.
  - intros link. apply revoke_all_loop_absent.
  - apply revoke_all_loop_size.
  - done.
  - by rewrite revoke_all_loop_count.
  - apply length_filter.
  - intros Hall. f_equal. induction (active_links now (link_data self)) as [|item l IH]; [done|].
    rewrite filter_cons_True by (apply Hall; left).
    f_equal. apply IH. intros i Hi. apply Hall. by right.
Qed.

(** C5.  Revoking one link answers "not found" exactly when the link is
    not in the registry, and then nothing changes; a link that is in the
    registry is deleted and the registry saved, whatever the platform
    answers to the revocation. *)
Theorem C5_revoke_not_found_iff_absent link api self :
  let r := process_revoke_request link api self in
  (r.2 = LinkNotFound <-> link_data self !! link = None)
  ∧ (link_data r.1 = link_data self <-> link_data self !! link = None)
  ∧ (link_data self !! link = None -> r.1 = self)
  ∧ (is_Some (link_data self !! link) ->
     r.2 = LinkRevoked
     ∧ link_data r.1 = delete link (link_data self)
     ∧ link_data r.1 !! link = None
     ∧ (forall other, other ≠ link -> link_data r.1 !! other = link_data self !! other)
     ∧ S (size (link_data r.1)) = size (link_data self)
     ∧ data_file r.1 = link_data r.1).
Proof.
  unfold process_revoke_request.
  destruct (link_data self !! link) as [info|] eqn:Hl; simpl.
  - split_and!.
    + split; done.
    + split; [|done]. intros H.
      assert (delete link (link_data self) !! link = Some info) as Hd
        by (by rewrite H).
      by rewrite lookup_delete_eq in Hd.
    + done.
    + intros _. split_and!; try done.
      * apply lookup_delete_eq.
      * intros other Hne. by apply lookup_delete_ne.
      * rewrite map_size_delete, Hl.
        assert (size (link_data self) ≠ 0)%nat; [|lia].
        apply map_size_ne_0_lookup_2 with link. by eexists.
  - split_and!; try done; intros [? ?]; done.
Qed.

(** C6.  A request to issue a link from someone who is not an admin, or
    one for which the platform does not mint a link, leaves the bot as it
    was.  When the platform mints a link for an admin, the registry gets
    that link with [uses = 0] and the configured [max_uses], every other
    record is untouched, the registry grows by one record when the link
    is new to it, and it is saved.  No handler changes the [uses] of a
    record it keeps. *)
Theorem C6_issue_inserts_unused_link_or_nothing
    user_id now iso_now create self :
  let expire_date := int_of_float now + LINK_EXPIRE_HOURS * 3600 in
  let r := generate_invite_link ADMIN_USER_IDS LINK_EXPIRE_HOURS
             LINK_MEMBER_LIMIT user_id now iso_now create self in
  (is_admin user_id = false -> r = (self, OnlyAdmin))
  ∧ (create LINK_MEMBER_LIMIT expire_date = None -> r.1 = self)
  ∧ (is_admin user_id = true ->
     forall link, create LINK_MEMBER_LIMIT expire_date = Some link ->
       let info := {| created_at := iso_now; created_by := user_id;
                      expires_at := expire_date; uses := 0;
                      max_uses := LINK_MEMBER_LIMIT |} in
       r.2 = LinkGenerated link
       ∧ link_data r.1 = <[link := info]> (link_data self)
       ∧ link_data r.1 !! link = Some info
       ∧ (forall other, other ≠ link ->
            link_data r.1 !! other = link_data self !! other)
       ∧ (link_data self !! link = None ->
            size (link_data r.1) = S (size (link_data self)))
       ∧ data_file r.1 = link_data r.1)
  ∧ (forall u bot link info info',
       link_data bot !! link = Some info ->
       link_data (handle u bot).1 !! link = Some info' ->
       uses info' = uses info
       ∨ (uses info' = 0
          ∧ exists user_id now iso create,
              u = Link user_id now iso create
              ∧ create LINK_MEMBER_LIMIT
                  (int_of_float now + LINK_EXPIRE_HOURS * 3600) = Some link)).
Proof.
  unfold generate_invite_link. split_and!.
  - by intros ->.
  - intros ->. by destruct (LinkGen.is_admin ADMIN_USER_IDS user_id).
  - intros -> link ->. simpl. split_and!; try done.
    + apply lookup_insert_eq.
    + intros other Hne. by apply lookup_insert_ne.
    + intros Hfresh. by apply map_size_insert_None.
  - intros u bot link info info' H1 H2.
    destruct (handle_keeps_records u bot link info info' H1 H2) as [->|H];
      [by left | by right].
Qed.

(** The links [list_links] lists are the active links of the registry. *)
Lemma list_to_map_active_links current_time (d : gmap string link_info) :
  list_to_map (active_links current_time d)
  = filter (λ item, is_active current_time item.2 = true) d.
Proof. unfold active_links. symmetry. apply map_filter_alt. Qed.

Lemma existsb_elem_of {A} (f : A -> bool) (l : list A) :
  existsb f l = true <-> exists x, x ∈ l ∧ f x = true.
Proof.
  rewrite existsb_exists. split; intros (x & Hx & Hf); exists x;
    (split; [by apply list_elem_of_In | done]).
Qed.

(** C7.  [list_links] selects the links of the registry that have
    [expires_at > now] and [uses < max_uses], and no other: one that
    expired a second ago is left out, one that expires in an hour and is
    unused with [max_uses = 1] is selected, and one with
    [uses >= max_uses] is left out whatever its expiry.  The bot is not
    changed.  For an admin the reply lists exactly the selected links,
    or says that there is none; when the expiry of a selected link
    cannot be laid out as a date the reply is the error message
    instead. *)
Theorem C7_list_links_selects_active user_id now fromtimestamp_raises self :
  is_admin user_id = true ->
  let active := active_links now (link_data self) in
  let r := list_links ADMIN_USER_IDS user_id now fromtimestamp_raises self in
  r.1 = self
  ∧ NoDup active
  ∧ (forall link info,
       (link, info) ∈ active
       <-> link_data self !! link = Some info
           ∧ (now < inject_Z (expires_at info))%Q ∧ uses info < max_uses info)
  ∧ (forall link info,
       (inject_Z (expires_at info) == now - 1)%Q -> (link, info) ∉ active)
  ∧ (forall link info,
       link_data self !! link = Some info ->
       (inject_Z (expires_at info) == now + 3600)%Q ->
       uses info = 0 -> max_uses info = 1 -> (link, info) ∈ active)
  ∧ (forall link info, max_uses info <= uses info -> (link, info) ∉ active)
  ∧ ((exists link info,
        (link, info) ∈ active ∧ fromtimestamp_raises (expires_at info) = true) ->
     r.2 = ErrorListingLinks)
  ∧ ((forall link info,
        (link, info) ∈ active -> fromtimestamp_raises (expires_at info) = false) ->
     (active = [] -> r.2 = NoActiveLinksFound)
     ∧ (active ≠ [] ->
        exists listed,
          r.2 = ActiveInviteLinks listed
          ∧ forall link info,
              listed !! link = Some info
              <-> link_data self !! link = Some info
                  ∧ (now < inject_Z (expires_at info))%Q
                  ∧ uses info < max_uses info)).
Proof.
  clear LINK_EXPIRE_HOURS LINK_MEMBER_LIMIT.
  intros Hadm active r. subst active r. split_and!.
  - unfold list_links. rewrite Hadm. simpl.
    destruct (existsb _ _); [done|].
    by destruct (active_links now (link_data self)).
  - apply NoDup_active_links.
  - intros link info. rewrite elem_of_active_links, is_active_spec. tauto.
  - intros link info He Hin.
    apply elem_of_active_links in Hin as [_ Hact].
    apply is_active_spec in Hact as [Hlt _]. rewrite He in Hlt. lra.
  - intros link info Hl He Hu Hm.
    apply elem_of_active_links. split; [done|].
    apply is_active_spec. split; [rewrite He; lra | lia].
  - intros link info Hle Hin.
    apply elem_of_active_links in Hin as [_ Hact].
    apply is_active_spec in Hact as [_ Hlt]. lia.
  - intros (link & info & Hin & Hraises).
    unfold list_links. rewrite Hadm. simpl.
    assert (existsb (λ item, fromtimestamp_raises (expires_at item.2))
              (active_links now (link_data self)) = true) as ->; [|done].
    apply existsb_elem_of. by exists (link, info).
  - intros Hfine. unfold list_links. rewrite Hadm. simpl.
    assert (existsb (λ item, fromtimestamp_raises (expires_at item.2))
              (active_links now (link_data self)) = false) as ->.
    { apply not_true_is_false. intros ([link info] & Hin & Hraises)%existsb_elem_of.
      simpl in Hraises. rewrite (Hfine link info Hin) in Hraises. done. }
    split.
    + by intros ->.
    + intros Hne. exists (list_to_map (active_links now (link_data self))).
      split; [by destruct (active_links now (link_data self))|].
      intros link info. rewrite list_to_map_active_links.
      rewrite map_lookup_filter_Some. simpl. rewrite is_active_spec. tauto.
Qed.

(** C10.  While a user is asked to confirm a revoke-all, the text is
    lowercased and compared with ['yes'] as it is: the links are revoked
    exactly when the text is one of the eight spellings of that word;
    any other text, such as one with something before or after the word,
    cancels, and then the registry and its file are as before. *)
Theorem C10_confirmation_lowercased_not_trimmed user_id text now api self :
  awaiting_confirmation self user_id ->
  let r := handle_pending_actions user_id text now api self in
  let loop := revoke_all_loop now api (link_data self) in
  (lower text = "yes"%string <-> text ∈ yes_spellings)
  ∧ (lower text = "yes"%string ->
     r.2 = Some (RevokedAll (revoked_count loop))
     ∧ link_data r.1 = loop_data loop
     ∧ data_file r.1 = loop_data loop)
  ∧ (lower text ≠ "yes"%string ->
     r.2 = Some OperationCancelled
     ∧ link_data r.1 = link_data self
     ∧ data_file r.1 = data_file self)
  ∧ (forall before after : string,
       text = before +:+ "yes" +:+ after ->
       before ≠ ""%string ∨ after ≠ ""%string ->
       lower text ≠ "yes"%string).
Proof.
  intros [b Hb]. unfold handle_pending_actions. rewrite Hb. split_and!.
  - apply lower_yes.
  - intros ->. done.
  - intros Hne. apply String.eqb_neq in Hne. by rewrite Hne.
  - intros before after -> Hor Hyes.
    apply (f_equal String.length) in Hyes.
    rewrite length_lower, !length_append in Hyes. simpl in Hyes.
    destruct Hor as [H|H]; [destruct before | destruct after];
      simpl in Hyes; try done; lia.
Qed.

(** C2 (as the code has it).  The two kinds of pending request are kept
    in two dictionaries that do not know of each other.  Only an admin
    ever has an entry; a request sets the entry of its own kind and
    leaves the other kind as it is; a text consumes the entry awaiting a
    confirmation when there is one, leaving the entry awaiting a link,
    and otherwise consumes the entry awaiting a link; after two texts of
    the user nothing is pending for that user. *)
Theorem C2_pending_requests_are_independent :
  (forall self, reachable self ->
     forall user_id,
       awaiting_confirmation self user_id ∨ awaiting_target self user_id ->
       is_admin user_id = true)
  ∧ (forall user_id api self,
       is_admin user_id = true ->
       let self' := (revoke_link ADMIN_USER_IDS user_id [] api self).1 in
       pending_revokes self' = <[user_id := true]> (pending_revokes self)
       ∧ pending_confirmations self' = pending_confirmations self)
  ∧ (forall user_id now self,
       is_admin user_id = true ->
       active_links now (link_data self) ≠ [] ->
       let self' := (revoke_all_links ADMIN_USER_IDS user_id now self).1 in
       pending_confirmations self'
       = <[user_id := true]> (pending_confirmations self)
       ∧ pending_revokes self' = pending_revokes self)
  ∧ (forall user_id text now api self,
       awaiting_confirmation self user_id ->
       let self' := (handle_pending_actions user_id text now api self).1 in
       pending_confirmations self' = delete user_id (pending_confirmations self)
       ∧ pending_revokes self' = pending_revokes self)
  ∧ (forall user_id text now api self,
       ¬ awaiting_confirmation self user_id ->
       let self' := (handle_pending_actions user_id text now api self).1 in
       pending_confirmations self' = pending_confirmations self
       ∧ pending_revokes self' = delete user_id (pending_revokes self))
  ∧ (forall user_id text1 now1 api1 text2 now2 api2 self,
       let self1 := (handle_pending_actions user_id text1 now1 api1 self).1 in
       let self2 := (handle_pending_actions user_id text2 now2 api2 self1).1 in
       ¬ awaiting_confirmation self2 user_id ∧ ¬ awaiting_target self2 user_id).
Proof.
  split_and!.
  - apply reachable_pending_admin.
  - intros user_id api self Hadm. unfold revoke_link. by rewrite Hadm.
  - intros user_id now self Hadm Hact. unfold revoke_all_links. rewrite Hadm.
    simpl. by destruct (active_links now (link_data self)).
  - apply handle_pending_actions_confirming.
  - apply handle_pending_actions_not_confirming.
  - intros user_id text1 now1 api1 text2 now2 api2 self self1 self2.
    subst self1 self2. unfold awaiting_confirmation, awaiting_target.
    destruct (decide (awaiting_confirmation self user_id)) as [Hc|Hc].
    + destruct (handle_pending_actions_confirming user_id text1 now1 api1 self Hc)
        as [H1 H2].
      set (self1 := (handle_pending_actions user_id text1 now1 api1 self).1) in *.
      assert (¬ awaiting_confirmation self1 user_id) as Hc1.
      { unfold awaiting_confirmation. rewrite H1, lookup_delete_eq.
        intros [? ?]; done. }
      destruct (handle_pending_actions_not_confirming user_id text2 now2 api2
                  self1 Hc1) as [H3 H4].
      rewrite H3, H4, lookup_delete_eq. split; [done|]. intros [? ?]; done.
    + destruct (handle_pending_actions_not_confirming user_id text1 now1 api1
                  self Hc) as [H1 H2].
      set (self1 := (handle_pending_actions user_id text1 now1 api1 self).1) in *.
      assert (¬ awaiting_confirmation self1 user_id) as Hc1.
      { unfold awaiting_confirmation. by rewrite H1. }
      destruct (handle_pending_actions_not_confirming user_id text2 now2 api2
                  self1 Hc1) as [H3 H4].
      rewrite H3, H4, H1, lookup_delete_eq. split; [done|]. intros [? ?]; done.
Qed.

End HandlerFacts.

(** *** The theorems on the small registry *)

Lemma C1_revoke_all_witness :
  awaiting_confirmation example_confirming 1
  ∧ lower "YES" = "yes"%string
  ∧ link_data (handle_pending_actions 1 "YES" example_now revoke_fails
                 example_confirming).1 !! "b"%string = None
  ∧ link_data (handle_pending_actions 1 "YES" example_now revoke_fails
                 example_confirming).1 !! "a"%string = Some (example_link 999 0).
Proof.
  assert (awaiting_confirmation example_confirming 1) as H1
    by (vm_compute; by eexists).
  assert (lower "YES" = "yes"%string) as H2 by reflexivity.
  destruct (C1_revoke_all_reports_platform_successes 1 "YES" example_now
              revoke_fails example_confirming H1 H2) as (Ha & Hi & _).
  split_and!; [done | done | |].
  - apply (Ha "b"%string (example_link 4600 0)); reflexivity.
  - apply (Hi "a"%string (example_link 999 0)); reflexivity.
Defined.

(** One active link, a platform that refuses the revocation: the link is
    processed and the reported count is 0, not 1. *)
Lemma C1_revoke_all_counterexample :
  awaiting_confirmation example_confirming 1
  ∧ length (active_links example_now (link_data example_confirming)) = 1%nat
  ∧ link_data (handle_pending_actions 1 "yes" example_now revoke_fails
                 example_confirming).1 !! "b"%string = None
  ∧ (handle_pending_actions 1 "yes" example_now revoke_fails
       example_confirming).2
    ≠ Some (RevokedAll
              (length (active_links example_now (link_data example_confirming)))).
Proof.
  split_and!.
  - vm_compute. by eexists.
  - reflexivity.
  - reflexivity.
  - vm_compute. discriminate.
Qed.

Lemma C2_pending_requests_witness :
  LinkGen.reachable example_admins 24 1 example_both_pending
  ∧ awaiting_confirmation example_both_pending 1
  ∧ is_admin example_admins 1 = true
  ∧ ¬ awaiting_target
        (handle_pending_actions 1 "b" example_now revoke_fails
           (handle_pending_actions 1 "no" example_now revoke_fails
              example_both_pending).1).1 1.
Proof.
  destruct (C2_pending_requests_are_independent example_admins 24 1)
    as (Hadm & _ & _ & _ & _ & Htwo).
  assert (LinkGen.reachable example_admins 24 1 example_both_pending) as Hr
    by (apply reachable_run; constructor).
  assert (awaiting_confirmation example_both_pending 1) as Hc
    by (vm_compute; by eexists).
  split_and!; [done | done | |].
  - apply (Hadm example_both_pending Hr 1). by left.
  - apply (Htwo 1 "no"%string example_now revoke_fails "b"%string example_now
             revoke_fails example_both_pending).
Defined.

(** After an unnamed revoke-one and a revoke-all the admin is in both
    dictionaries, and the text that answers the confirmation leaves the
    other request pending. *)
Lemma C2_pending_requests_counterexample :
  LinkGen.reachable example_admins 24 1 example_both_pending
  ∧ awaiting_confirmation example_both_pending 1
  ∧ awaiting_target example_both_pending 1
  ∧ awaiting_target
      (handle_pending_actions 1 "no" example_now revoke_fails
         example_both_pending).1 1.
Proof.
  split_and!.
  - apply reachable_run. constructor.
  - vm_compute. by eexists.
  - vm_compute. by eexists.
  - vm_compute. by eexists.
Qed.

Lemma C5_revoke_witness :
  is_Some (link_data example_confirming !! "b"%string)
  ∧ (process_revoke_request "b" revoke_fails example_confirming).2 = LinkRevoked
  ∧ link_data (process_revoke_request "b" revoke_fails example_confirming).1
      !! "b"%string = None
  ∧ link_data example_confirming !! "nolink"%string = None
  ∧ (process_revoke_request "nolink" revoke_fails example_confirming).1
    = example_confirming.
Proof.
  assert (is_Some (link_data example_confirming !! "b"%string)) as Hb
    by (vm_compute; by eexists).
  assert (link_data example_confirming !! "nolink"%string = None) as Hn
    by reflexivity.
  destruct (C5_revoke_not_found_iff_absent "b" revoke_fails example_confirming)
    as (_ & _ & _ & Hpresent).
  destruct (Hpresent Hb) as (Hr & _ & Hgone & _).
  destruct (C5_revoke_not_found_iff_absent "nolink" revoke_fails
              example_confirming) as (_ & _ & Habsent & _).
  split_and!; [done | done | done | done | by apply Habsent].
Defined.

Lemma C6_issue_witness :
  is_admin example_admins 1 = true
  ∧ mint_L 1 (int_of_float example_now + 24 * 3600) = Some "L"%string
  ∧ link_data (generate_invite_link example_admins 24 1 1 example_now
                 "2024-05-01T10:00:00" mint_L (init ∅)).1 !! "L"%string
    = Some {| created_at := "2024-05-01T10:00:00"; created_by := 1;
              expires_at := 87400; uses := 0; max_uses := 1 |}
  ∧ mint_fails 1 (int_of_float example_now + 24 * 3600) = None
  ∧ (generate_invite_link example_admins 24 1 1 example_now
       "2024-05-01T10:00:00" mint_fails example_confirming).1
    = example_confirming.
Proof.
  assert (is_admin example_admins 1 = true) as Hadm by reflexivity.
  assert (mint_L 1 (int_of_float example_now + 24 * 3600) = Some "L"%string)
    as Hmint by reflexivity.
  destruct (C6_issue_inserts_unused_link_or_nothing example_admins 24 1 1
              example_now "2024-05-01T10:00:00" mint_L (init ∅))
    as (_ & _ & Hok & _).
  destruct (Hok Hadm "L"%string Hmint) as (_ & _ & Hl & _).
  destruct (C6_issue_inserts_unused_link_or_nothing example_admins 24 1 1
              example_now "2024-05-01T10:00:00" mint_fails example_confirming)
    as (_ & Hfail & _).
  split_and!; [done | done | exact Hl | done | by apply Hfail].
Defined.

Lemma C7_list_links_witness :
  is_admin example_admins 1 = true
  ∧ (("b"%string, example_link 4600 0)
       ∈ active_links example_now (link_data example_confirming))
  ∧ (("a"%string, example_link 999 0)
       ∉ active_links example_now (link_data example_confirming))
  ∧ (("c"%string, example_link 5000 1)
       ∉ active_links example_now (link_data example_confirming))
  ∧ (forall link info,
       (link, info) ∈ active_links example_now (link_data example_confirming) ->
       raises_outside_years_1_9999 (expires_at info) = false)
  ∧ exists listed,
      (list_links example_admins 1 example_now raises_outside_years_1_9999
         example_confirming).2 = ActiveInviteLinks listed
      ∧ listed !! "b"%string = Some (example_link 4600 0).
Proof.
  assert (is_admin example_admins 1 = true) as Hadm by reflexivity.
  assert (forall link info,
            (link, info)
              ∈ active_links example_now (link_data example_confirming) ->
            raises_outside_years_1_9999 (expires_at info) = false) as Hfine.
  { intros link info Hin. vm_compute in Hin.
    apply list_elem_of_singleton in Hin. by injection Hin as -> ->. }
  destruct (C7_list_links_selects_active example_admins 1 example_now
              raises_outside_years_1_9999 example_confirming Hadm)
    as (_ & _ & Hiff & Hpast & Hhour & Hfull & _ & Hlist).
  destruct (Hlist Hfine) as [_ Hsome].
  destruct Hsome as (listed & Hr & Hlisted);
    [vm_compute; discriminate|].
  split_and!; [done | | | | done |].
  - apply Hhour; reflexivity.
  - apply Hpast. reflexivity.
  - apply Hfull. simpl. lia.
  - exists listed. split; [done|]. apply Hlisted.
    split_and!; [reflexivity | reflexivity | simpl; lia].
Defined.

Lemma C10_confirmation_witness :
  awaiting_confirmation example_confirming 1
  ∧ lower " yes" ≠ "yes"%string
  ∧ (handle_pending_actions 1 " yes" example_now revoke_fails
       example_confirming).2 = Some OperationCancelled
  ∧ link_data (handle_pending_actions 1 " yes" example_now revoke_fails
                 example_confirming).1 = link_data example_confirming.
Proof.
  assert (awaiting_confirmation example_confirming 1) as Hc
    by (vm_compute; by eexists).
  destruct (C10_confirmation_lowercased_not_trimmed 1 " yes" example_now
              revoke_fails example_confirming Hc) as (_ & _ & Hno & Hpad).
  assert (lower " yes" ≠ "yes"%string) as Hne.
  { apply (Hpad " "%string ""%string); [reflexivity | by left]. }
  destruct (Hno Hne) as (Hr & Hd & _).
  split_and!; done.
Defined.

End LinkGenProps.

(** ** Facts on [delete_if] *)

Section DeleteIf.

Context {A : Type} (p : string * A -> bool).

Lemma delete_if_gone d item k :
  d !! k = None -> delete_if p d item !! k = None.
Proof.
  unfold delete_if. destruct (p item); [|done].
  intros H. rewrite lookup_delete. by case_decide.
Qed.

Lemma foldl_delete_if_gone l d k :
  d !! k = None -> foldl (delete_if p) d l !! k = None.
Proof.
  revert d. induction l as [|item l IH]; intros d H; simpl; [done|].
  by apply IH, delete_if_gone.
Qed.

Lemma foldl_delete_if_hit l d k x :
  (k, x) ∈ l -> p (k, x) = true -> foldl (delete_if p) d l !! k = None.
Proof.
  revert d. induction l as [|item l IH]; intros d Hin Hp.
  - by apply elem_of_nil in Hin.
  - apply elem_of_cons in Hin as [<-|Hin]; simpl; [|by apply IH].
    apply foldl_delete_if_gone. unfold delete_if. rewrite Hp.
    apply lookup_delete_eq.
Qed.

Lemma foldl_delete_if_miss l d k :
  (forall x, (k, x) ∈ l -> p (k, x) = false) ->
  foldl (delete_if p) d l !! k = d !! k.
Proof.
  revert d. induction l as [|[k' x'] l IH]; intros d H; simpl; [done|].
  rewrite IH by (intros x Hx; apply H; by right).
  unfold delete_if. destruct (p (k', x')) eqn:Hp; [|done].
  simpl. apply lookup_delete_ne. intros ->.
  specialize (H x' (list_elem_of_here _ _)). congruence.
Qed.

(** Going through the items of the dictionary itself filters it. *)
Lemma foldl_delete_if_items (d : gmap string A) :
  foldl (delete_if p) d (map_to_list d) = filter (λ item, p item = false) d.
Proof.
  apply map_eq. intros k.
  destruct (d !! k) as [x|] eqn:Hd.
  - destruct (p (k, x)) eqn:Hp.
    + rewrite (foldl_delete_if_hit _ _ k x);
        [| by apply elem_of_map_to_list | done].
      symmetry. apply map_lookup_filter_None. right. intros y Hy.
      simpl. congruence.
    + rewrite foldl_delete_if_miss.
      * rewrite Hd. symmetry. by apply map_lookup_filter_Some.
      * intros y Hy. apply elem_of_map_to_list in Hy. congruence.
  - rewrite foldl_delete_if_gone by done.
    symmetry. apply map_lookup_filter_None. by left.
Qed.

End DeleteIf.

Module MainProps.
Import Main.

(** *** The loops of [remove_expired_members] *)

Section RemovalFacts.

Variable ban_chat_member : string -> string -> api_result.
Variable unban_chat_member : string -> string -> api_result.
Variable threshold_date : Z.

#[local] Abbreviation kick := (Main.kick ban_chat_member unban_chat_member).
#[local] Abbreviation kicked := (Main.kicked ban_chat_member unban_chat_member).
#[local] Abbreviation removable :=
  (Main.removable ban_chat_member unban_chat_member threshold_date).
#[local] Abbreviation member_step :=
  (remove_member_step ban_chat_member unban_chat_member threshold_date).
#[local] Abbreviation chat_step :=
  (remove_chat_step ban_chat_member unban_chat_member threshold_date).
#[local] Abbreviation expired :=
  (λ m : string * Z, is_expired threshold_date m.2 = true).

(** What is left of the members of a chat. *)
#[local] Abbreviation kept := (λ chat (members : gmap string Z),
  filter (λ item, removable chat item = false) members).

Lemma member_step_data chat acc item :
  removal_data (member_step chat acc item)
  = alter (λ members, delete_if (removable chat) members item) chat
          (removal_data acc).
Proof.
  destruct item as [user join_date].
  unfold remove_member_step, delete_if, Main.removable. simpl.
  destruct (is_expired threshold_date join_date); simpl.
  - destruct (kick chat user); simpl; [done|].
    symmetry. by apply alter_id.
  - symmetry. by apply alter_id.
Qed.

Lemma member_fold_data chat l acc :
  removal_data (foldl (member_step chat) acc l)
  = alter (λ members, foldl (delete_if (removable chat)) members l) chat
          (removal_data acc).
Proof.
  revert acc. induction l as [|item l IH]; intros acc; simpl.
  - symmetry. by apply alter_id.
  - rewrite IH, member_step_data, alter_alter_eq. done.
Qed.

Lemma member_fold_counts chat l acc :
  removal_count (foldl (member_step chat) acc l)
  = (removal_count acc
     + length (filter kicked ((λ m, (chat, m)) <$> filter expired l)))%nat
  ∧ error_count (foldl (member_step chat) acc l)
    = (error_count acc
       + length (filter (λ e, ¬ kicked e)
                        ((λ m, (chat, m)) <$> filter expired l)))%nat.
Proof.
  revert acc. induction l as [|[user join_date] l IH]; intros acc.
  - simpl. lia.
  - cbn [foldl]. destruct (IH (member_step chat acc (user, join_date))) as [-> ->].
    unfold remove_member_step.
    destruct (is_expired threshold_date join_date) eqn:Hexp.
    + rewrite (filter_cons_True expired) by done. rewrite fmap_cons.
      destruct (kick chat user) eqn:Hkick; cbn [removal_count error_count].
      * rewrite (filter_cons_True kicked) by done.
        rewrite (filter_cons_False (λ e, ¬ kicked e))
          by (intros H; by apply H).
        simpl. lia.
      * rewrite (filter_cons_False kicked)
          by (unfold Main.kicked; simpl; congruence).
        rewrite (filter_cons_True (λ e, ¬ kicked e))
          by (unfold Main.kicked; simpl; congruence).
        simpl. lia.
    + rewrite (filter_cons_False expired) by (simpl; congruence). lia.
Qed.

(** One turn of the outer loop, on a chat that is in the registry. *)
Lemma chat_step_data acc chat members0 members :
  removal_data acc !! chat = Some members ->
  removal_data (chat_step acc (chat, members0))
  = <[chat := kept chat members]> (removal_data acc).
Proof.
  intros Hc. unfold remove_chat_step. simpl. rewrite Hc. simpl.
  rewrite member_fold_data. apply map_eq. intros c.
  rewrite lookup_alter, lookup_insert. case_decide as Heq; [|done].
  subst c. rewrite Hc. simpl. by rewrite foldl_delete_if_items.
Qed.

Lemma chat_step_counts acc chat members :
  removal_data acc !! chat = Some members ->
  removal_count (chat_step acc (chat, members))
  = (removal_count acc
     + length (filter kicked (expired_in threshold_date [(chat, members)])))%nat
  ∧ error_count (chat_step acc (chat, members))
    = (error_count acc
       + length (filter (λ e, ¬ kicked e)
                        (expired_in threshold_date [(chat, members)])))%nat.
Proof.
  intros Hc. unfold remove_chat_step, expired_in. simpl. rewrite Hc. simpl.
  rewrite app_nil_r. apply member_fold_counts.
Qed.

Lemma expired_in_cons item chats :
  expired_in threshold_date (item :: chats)
  = expired_in threshold_date [item] ++ expired_in threshold_date chats.
Proof. unfold expired_in. simpl. by rewrite app_nil_r. Qed.

(** The outer loop, over chats that are all in the registry with the
    members the copy of the items shows. *)
Lemma chat_fold chats acc :
  NoDup chats.*1 ->
  (forall chat members, (chat, members) ∈ chats ->
     removal_data acc !! chat = Some members) ->
  let r := foldl chat_step acc chats in
  (forall chat,
     removal_data r !! chat
     = if decide (chat ∈ chats.*1)
       then kept chat <$> removal_data acc !! chat
       else removal_data acc !! chat)
  ∧ removal_count r
    = (removal_count acc
       + length (filter kicked (expired_in threshold_date chats)))%nat
  ∧ error_count r
    = (error_count acc
       + length (filter (λ e, ¬ kicked e) (expired_in threshold_date chats)))%nat.
Proof.
  revert acc. induction chats as [|[c m] chats IH]; intros acc Hnd Hin.
  - split_and!; [| simpl; lia | simpl; lia]. intros chat.
    rewrite decide_False; [done|]. apply not_elem_of_nil.
  - rewrite fmap_cons in Hnd. apply NoDup_cons in Hnd as [Hfresh Hnd].
    assert (removal_data acc !! c = Some m) as Hc by (apply Hin; left).
    pose proof (chat_step_data acc c m m Hc) as Hdata.
    destruct (chat_step_counts acc c m Hc) as [Hrc Hec].
    cbn [foldl]. cbn zeta.
    destruct (IH (chat_step acc (c, m)) Hnd) as (IHd & IHr & IHe).
    { intros chat members Hcm. rewrite Hdata, lookup_insert_ne.
      - apply Hin. by right.
      - intros ->. apply Hfresh. apply list_elem_of_fmap. by exists (chat, members). }
    split_and!.
    + intros chat. rewrite IHd, Hdata, fmap_cons. simpl.
      destruct (decide (chat = c)) as [->|Hne].
      * rewrite decide_False by done.
        rewrite decide_True by left.
        by rewrite lookup_insert_eq, Hc.
      * rewrite lookup_insert_ne by done.
        destruct (decide (chat ∈ chats.*1)) as [Hel|Hel].
        -- rewrite decide_True; [done|]. by right.
        -- rewrite decide_False; [done|].
           intros [?|?]%elem_of_cons; done.
    + rewrite IHr, Hrc, (expired_in_cons (c, m) chats), filter_app, length_app. lia.
    + rewrite IHe, Hec, (expired_in_cons (c, m) chats), filter_app, length_app. lia.
Qed.

End RemovalFacts.

(** *** Join dates *)

Lemma joined_at_ensure_chat chat d chat' user :
  joined_at (ensure_chat chat d) chat' user = joined_at d chat' user.
Proof.
  unfold joined_at, ensure_chat.
  destruct (d !! chat) eqn:Hc; [done|].
  rewrite lookup_insert.
  destruct (decide (chat = chat')) as [<-|Hne]; [by rewrite Hc | done].
Qed.

Lemma ensure_chat_is_Some chat d : is_Some (ensure_chat chat d !! chat).
Proof.
  unfold ensure_chat. destruct (d !! chat) eqn:Hc.
  - rewrite Hc. by eexists.
  - rewrite lookup_insert_eq. by eexists.
Qed.

Lemma joined_at_set_join_date chat user t d chat' user' :
  is_Some (d !! chat) ->
  joined_at (set_join_date chat user t d) chat' user'
  = if decide (chat = chat' ∧ user = user') then Some t
    else joined_at d chat' user'.
Proof.
  intros [members Hm]. unfold joined_at, set_join_date.
  rewrite lookup_alter.
  destruct (decide (chat = chat')) as [<-|Hne].
  - rewrite Hm. simpl. rewrite lookup_insert.
    destruct (decide (user = user')) as [<-|Hu].
    + by rewrite decide_True.
    + rewrite decide_False; [done|]. intros [_ ?]; done.
  - rewrite decide_False; [done|]. intros [? _]; done.
Qed.

Lemma set_join_date_is_Some chat user t d chat' :
  is_Some (d !! chat') -> is_Some (set_join_date chat user t d !! chat').
Proof.
  intros [m Hm]. unfold set_join_date. rewrite lookup_alter.
  destruct (decide (chat = chat')) as [<-|Hne]; rewrite Hm; by eexists.
Qed.


(** *** The whole job *)

Section SweepFacts.

Variable ban_chat_member : string -> string -> api_result.
Variable unban_chat_member : string -> string -> api_result.

#[local] Abbreviation kick := (Main.kick ban_chat_member unban_chat_member).
#[local] Abbreviation kicked := (Main.kicked ban_chat_member unban_chat_member).
#[local] Abbreviation removable :=
  (Main.removable ban_chat_member unban_chat_member).
#[local] Abbreviation sweep :=
  (remove_expired_members ban_chat_member unban_chat_member).

Lemma sweep_data now self chat :
  join_data (sweep now self).1 !! chat
  = filter (λ item, removable (now - timedelta_days 30) chat item = false)
    <$> join_data self !! chat.
Proof.
  unfold remove_expired_members. simpl.
  destruct (chat_fold ban_chat_member unban_chat_member
              (now - timedelta_days 30) (map_to_list (join_data self))
              {| removal_data := join_data self;
                 removal_count := 0; error_count := 0 |}) as (Hd & _ & _).
  { apply NoDup_fst_map_to_list. }
  { intros c m Hcm. simpl. by apply elem_of_map_to_list. }
  rewrite Hd. simpl. case_decide as Hel; [done|].
  destruct (join_data self !! chat) as [m|] eqn:Hc; [|done].
  exfalso. apply Hel. apply list_elem_of_fmap. exists (chat, m).
  split; [done|]. by apply elem_of_map_to_list.
Qed.

Lemma sweep_counts now self :
  members_removed (sweep now self).2
  = length (filter kicked
              (expired_members (now - timedelta_days 30) (join_data self)))
  ∧ errors (sweep now self).2
    = length (filter (λ e, ¬ kicked e)
                (expired_members (now - timedelta_days 30) (join_data self))).
Proof.
  unfold remove_expired_members. simpl.
  destruct (chat_fold ban_chat_member unban_chat_member
              (now - timedelta_days 30) (map_to_list (join_data self))
              {| removal_data := join_data self;
                 removal_count := 0; error_count := 0 |}) as (_ & Hr & He).
  { apply NoDup_fst_map_to_list. }
  { intros c m Hcm. simpl. by apply elem_of_map_to_list. }
  by rewrite Hr, He.
Qed.

Lemma sweep_joined_at now self chat user :
  joined_at (join_data (sweep now self).1) chat user
  = match joined_at (join_data self) chat user with
    | Some t =>
        if removable (now - timedelta_days 30) chat (user, t) then None
        else Some t
    | None => None
    end.
Proof.
  unfold joined_at. rewrite sweep_data.
  destruct (join_data self !! chat) as [m|]; simpl; [|done].
  rewrite map_lookup_filter.
  destruct (m !! user) as [t|]; simpl; [|done].
  destruct (removable (now - timedelta_days 30) chat (user, t)).
  - by rewrite option_guard_False.
  - by rewrite option_guard_True.
Qed.

End SweepFacts.

Lemma elem_of_expired_members threshold_date d chat user t :
  (chat, (user, t)) ∈ expired_members threshold_date d
  <-> joined_at d chat user = Some t ∧ is_expired threshold_date t = true.
Proof.
  unfold expired_members, expired_in, joined_at.
  rewrite list_elem_of_bind. split.
  - intros ([c m] & Hin & Hcm). simpl in Hin.
    apply list_elem_of_fmap in Hin as ([u t'] & Heq & Hin).
    injection Heq as -> -> ->.
    apply list_elem_of_filter in Hin as [Hexp Hin]. simpl in Hexp.
    apply elem_of_map_to_list in Hin, Hcm. rewrite Hcm. simpl. done.
  - intros [Hj Hexp].
    destruct (d !! chat) as [m|] eqn:Hc; simpl in Hj; [|done].
    exists (chat, m). split; [|by apply elem_of_map_to_list].
    simpl. apply list_elem_of_fmap. exists (user, t). split; [done|].
    apply list_elem_of_filter. split; [done|]. by apply elem_of_map_to_list.
Qed.

Lemma NoDup_expired_members threshold_date d :
  NoDup (expired_members threshold_date d).
Proof.
  unfold expired_members, expired_in. apply NoDup_bind.
  - intros [c1 m1] [c2 m2] [c [u t]] H1 H2 Hy1 Hy2. simpl in *.
    apply list_elem_of_fmap in Hy1 as (? & [= -> _] & _).
    apply list_elem_of_fmap in Hy2 as (? & [= -> _] & _).
    apply elem_of_map_to_list in H1, H2. congruence.
  - intros [c m] _. simpl. apply NoDup_fmap_2.
    + intros x y [= ->]. done.
    + apply NoDup_filter, NoDup_map_to_list.
  - apply NoDup_map_to_list.
Qed.

Lemma length_filter_complement {A} (P : A -> Prop) `{!forall x, Decision (P x)}
    (l : list A) :
  (length (filter P l) + length (filter (λ x, ¬ P x) l))%nat = length l.
Proof.
  induction l as [|x l IH]; [done|].
  destruct (decide (P x)) as [Hx|Hx].
  - rewrite (filter_cons_True P) by done.
    rewrite (filter_cons_False (λ x, ¬ P x)) by (intros Hn; by apply Hn).
    simpl. lia.
  - rewrite (filter_cons_False P) by done.
    rewrite (filter_cons_True (λ x, ¬ P x)) by done.
    simpl. lia.
Qed.

Lemma is_expired_spec now join_date :
  is_expired (now - timedelta_days 30) join_date = true
  <-> now - join_date > timedelta_days 30.
Proof. unfold is_expired. rewrite Z.ltb_lt. lia. Qed.

(** *** Joins *)



(** *** The job that removes expired members *)

(** C4.  The job always ends with its summary.  An expired member whose
    removal the platform refuses keeps its join date and counts as an
    error; the other expired members are still removed and counted, and
    the members that are not expired are left alone. *)
Theorem C4_failed_removal_keeps_record_and_counts
    ban_chat_member unban_chat_member now self :
  let r := remove_expired_members ban_chat_member unban_chat_member now self in
  let threshold_date := now - timedelta_days 30 in
  let expired := expired_members threshold_date (join_data self) in
  let kicked := kicked ban_chat_member unban_chat_member in
  (forall chat user t,
     joined_at (join_data self) chat user = Some t ->
     is_expired threshold_date t = true ->
     kick ban_chat_member unban_chat_member chat user = ApiTelegramError ->
     joined_at (join_data r.1) chat user = Some t)
  ∧ (forall chat user t,
       joined_at (join_data self) chat user = Some t ->
       is_expired threshold_date t = true ->
       kick ban_chat_member unban_chat_member chat user = ApiOk ->
       joined_at (join_data r.1) chat user = None)
  ∧ (forall chat user t,
       joined_at (join_data self) chat user = Some t ->
       is_expired threshold_date t = false ->
       joined_at (join_data r.1) chat user = Some t)
  ∧ NoDup expired
  ∧ (forall chat user t,
       (chat, (user, t)) ∈ expired
       <-> joined_at (join_data self) chat user = Some t
           ∧ is_expired threshold_date t = true)
  ∧ errors r.2 = length (filter (λ e, ¬ kicked e) expired)
  ∧ members_removed r.2 = length (filter kicked expired)
  ∧ (members_removed r.2 + errors r.2)%nat = length expired
  ∧ data_file r.1 = join_data r.1.
Proof.
  intros r threshold_date expired kicked. subst r.
  destruct (sweep_counts ban_chat_member unban_chat_member now self)
    as [Hr He].
  split_and!.
  - intros chat user t Hj Hexp Hkick.
    rewrite sweep_joined_at, Hj. unfold removable. simpl.
    by rewrite Hkick, andb_false_r.
  - intros chat user t Hj Hexp Hkick.
    rewrite sweep_joined_at, Hj. unfold removable. simpl.
    fold threshold_date. by rewrite Hexp, Hkick.
  - intros chat user t Hj Hexp.
    rewrite sweep_joined_at, Hj. unfold removable. simpl.
    fold threshold_date. by rewrite Hexp.
  - apply NoDup_expired_members.
  - intros chat user t. apply elem_of_expired_members.
  - exact He.
  - exact Hr.
  - rewrite Hr, He. apply length_filter_complement.
  - done.
Qed.

(** C8.  A member is expired for the job exactly when [now - joined_at]
    is more than 30 days: 31 days is, 29 days is not, and exactly 30 days
    is not; and the job, on a platform that removes the member, deletes
    the join date exactly in that case. *)
Theorem C8_expired_iff_older_than_thirty_days now :
  let threshold_date := now - timedelta_days 30 in
  (forall join_date,
     is_expired threshold_date join_date = true
     <-> now - join_date > timedelta_days 30)
  ∧ is_expired threshold_date (now - timedelta_days 31) = true
  ∧ is_expired threshold_date (now - timedelta_days 29) = false
  ∧ is_expired threshold_date (now - timedelta_days 30) = false
  ∧ (forall ban_chat_member unban_chat_member self chat user t,
       joined_at (join_data self) chat user = Some t ->
       kick ban_chat_member unban_chat_member chat user = ApiOk ->
       (joined_at
          (join_data (remove_expired_members ban_chat_member
                        unban_chat_member now self).1) chat user = None
        <-> now - t > timedelta_days 30)).
Proof.
  intros threshold_date. subst threshold_date. split_and!.
  - intros join_date. apply is_expired_spec.
  - apply is_expired_spec. unfold timedelta_days. lia.
  - apply not_true_is_false. rewrite is_expired_spec. unfold timedelta_days. lia.
  - apply not_true_is_false. rewrite is_expired_spec. lia.
  - intros ban unban self chat user t Hj Hkick.
    rewrite sweep_joined_at, Hj, <- is_expired_spec.
    unfold removable. simpl. rewrite Hkick, andb_true_r.
    by destruct (is_expired (now - timedelta_days 30) t).
Qed.

(** C9.  When the platform removes every expired member, a second run of
    the job at the same time finds no expired member: it removes nobody,
    reports no error and leaves the registry as the first run left it,
    whatever the platform would answer. *)
Theorem C9_second_run_removes_nothing
    ban_chat_member unban_chat_member ban_again unban_again now self :
  (forall entry,
     entry ∈ expired_members (now - timedelta_days 30) (join_data self) ->
     kicked ban_chat_member unban_chat_member entry) ->
  let first := remove_expired_members ban_chat_member unban_chat_member
                 now self in
  let second := remove_expired_members ban_again unban_again now first.1 in
  expired_members (now - timedelta_days 30) (join_data first.1) = []
  ∧ second.2 = {| members_removed := 0; errors := 0 |}
  ∧ join_data second.1 = join_data first.1
  ∧ data_file second.1 = join_data first.1.
Proof.
  intros Hall first second.
  assert (forall chat user t,
            joined_at (join_data first.1) chat user = Some t ->
            is_expired (now - timedelta_days 30) t = false) as Hfresh.
  { intros chat user t. subst first. rewrite sweep_joined_at.
    destruct (joined_at (join_data self) chat user) as [t0|] eqn:Hj; [|done].
    unfold removable. simpl.
    destruct (is_expired (now - timedelta_days 30) t0) eqn:Hexp.
    - assert (kicked ban_chat_member unban_chat_member (chat, (user, t0))) as Hk.
      { apply Hall. by apply elem_of_expired_members. }
      unfold kicked in Hk. simpl in Hk. by rewrite Hk.
    - simpl. intros [= <-]. done. }
  assert (expired_members (now - timedelta_days 30) (join_data first.1) = [])
    as Hnone.
  { destruct (expired_members _ (join_data first.1)) as [|[c [u t]] l] eqn:He;
      [done|].
    assert ((c, (u, t)) ∈ expired_members (now - timedelta_days 30)
                            (join_data first.1)) as Hin
      by (rewrite He; left).
    apply elem_of_expired_members in Hin as [Hj Hexp].
    apply Hfresh in Hj. congruence. }
  assert (join_data second.1 = join_data first.1) as Hsame.
  { apply map_eq. intros chat. subst second. rewrite sweep_data.
    destruct (join_data first.1 !! chat) as [m|] eqn:Hc; [|done].
    simpl. f_equal. apply map_filter_id. intros user t Hu.
    unfold removable. simpl.
    rewrite (Hfresh chat user t); [done|].
    unfold joined_at. by rewrite Hc. }
  split_and!; [done | | done | by rewrite <- Hsame].
  destruct (sweep_counts ban_again unban_again now first.1) as [Hr He].
  fold second in Hr, He. rewrite Hnone in Hr, He.
  destruct second.2 as [removed failed]. simpl in *. congruence.
Qed.

(** *** The theorems on the small registry *)


Lemma C4_failed_removal_witness :
  joined_at (join_data example_bot) "-100" "10"
  = Some (example_now - timedelta_days 40)
  ∧ is_expired (example_now - timedelta_days 30)
               (example_now - timedelta_days 40) = true
  ∧ kick ban_refuses_10 api_accepts "-100" "10" = ApiTelegramError
  ∧ joined_at (join_data (remove_expired_members ban_refuses_10 api_accepts
                            example_now example_bot).1) "-100" "10"
    = Some (example_now - timedelta_days 40)
  ∧ joined_at (join_data (remove_expired_members ban_refuses_10 api_accepts
                            example_now example_bot).1) "-100" "7" = None
  ∧ (remove_expired_members ban_refuses_10 api_accepts example_now
       example_bot).2 = {| members_removed := 1; errors := 1 |}.
Proof.
  destruct (C4_failed_removal_keeps_record_and_counts ban_refuses_10
              api_accepts example_now example_bot) as (Hfail & Hok & _).
  split_and!; [reflexivity | reflexivity | reflexivity | | | reflexivity].
  - apply Hfail; reflexivity.
  - apply (Hok "-100"%string "7"%string (example_now - timedelta_days 31));
      reflexivity.
Defined.

Lemma C8_expired_witness :
  joined_at (join_data example_bot) "-100" "9"
  = Some (example_now - timedelta_days 30)
  ∧ kick api_accepts api_accepts "-100" "9" = ApiOk
  ∧ joined_at (join_data (remove_expired_members api_accepts api_accepts
                            example_now example_bot).1) "-100" "9" ≠ None
  ∧ joined_at (join_data (remove_expired_members api_accepts api_accepts
                            example_now example_bot).1) "-100" "7" = None.
Proof.
  destruct (C8_expired_iff_older_than_thirty_days example_now)
    as (_ & _ & _ & _ & Hjob).
  split_and!; [reflexivity | reflexivity | |].
  - intros Hgone.
    apply (Hjob api_accepts api_accepts example_bot "-100"%string "9"%string
             (example_now - timedelta_days 30)) in Hgone;
      [lia | reflexivity | reflexivity].
  - apply (Hjob api_accepts api_accepts example_bot "-100"%string "7"%string
             (example_now - timedelta_days 31));
      [reflexivity | reflexivity | unfold timedelta_days; lia].
Defined.

Lemma C9_second_run_witness :
  (forall entry,
     entry ∈ expired_members (example_now - timedelta_days 30)
               (join_data example_bot) ->
     kicked api_accepts api_accepts entry)
  ∧ (remove_expired_members api_accepts api_accepts example_now
       example_bot).2 = {| members_removed := 2; errors := 0 |}
  ∧ (remove_expired_members ban_refuses_10 api_accepts example_now
       (remove_expired_members api_accepts api_accepts example_now
          example_bot).1).2 = {| members_removed := 0; errors := 0 |}.
Proof.
  assert (forall entry,
            entry ∈ expired_members (example_now - timedelta_days 30)
                      (join_data example_bot) ->
            kicked api_accepts api_accepts entry) as Hall
    by (intros entry _; reflexivity).
  destruct (C9_second_run_removes_nothing api_accepts api_accepts
              ban_refuses_10 api_accepts example_now example_bot Hall)
    as (_ & Hsecond & _).
  split_and!; [exact Hall | reflexivity | exact Hsecond].
Defined.

End MainProps.

(** ** More on [linkgen.py] *)

Module LinkGenMore.
Import LinkGen LinkGenProps.

(** *** [strip] *)

Lemma lstrip_all_space s : all_space s = true -> lstrip s = ""%string.
Proof.
  induction s as [|c s IH]; simpl; [done|].
  intros [Hc Hs]%andb_true_iff. rewrite Hc. by apply IH.
Qed.

Lemma lstrip_padded before s :
  all_space before = true -> lstrip (before +:+ s) = lstrip s.
Proof.
  induction before as [|c before IH]; simpl; [done|].
  intros [Hc Hs]%andb_true_iff. rewrite Hc. by apply IH.
Qed.

Lemma rstrip_all_space s : all_space s = true -> rstrip s = ""%string.
Proof.
  induction s as [|c s IH]; simpl; [done|].
  intros [Hc Hs]%andb_true_iff. by rewrite IH, Hc.
Qed.

Lemma rstrip_padded s after :
  all_space after = true -> rstrip (s +:+ after) = rstrip s.
Proof.
  intros Hafter. induction s as [|c s IH]; simpl.
  - by apply rstrip_all_space.
  - by rewrite IH.
Qed.

Lemma lstrip_append s after :
  all_space s = false -> lstrip (s +:+ after) = lstrip s +:+ after.
Proof.
  induction s as [|c s IH]; simpl; [done|].
  destruct (isspace c); simpl; [done|]. intros _. done.
Qed.

Lemma all_space_append s1 s2 :
  all_space (s1 +:+ s2) = all_space s1 && all_space s2.
Proof.
  induction s1 as [|c s1 IH]; simpl; [done|]. by rewrite IH, andb_assoc.
Qed.

Lemma strip_padded before s after :
  all_space before = true -> all_space after = true ->
  strip (before +:+ s +:+ after) = strip s.
Proof.
  intros Hb Ha. unfold strip. rewrite lstrip_padded by done.
  destruct (all_space s) eqn:Hs.
  - rewrite !rstrip_all_space; [done| |].
    + rewrite lstrip_all_space; done.
    + rewrite lstrip_all_space; [done|].
      by rewrite all_space_append, Hs, Ha.
  - rewrite lstrip_append by done. by apply rstrip_padded.
Qed.

(** *** The time of expiry *)

Lemma int_of_float_above now : (now - 1 < inject_Z (int_of_float now))%Q.
Proof.
  destruct now as [n d]. unfold int_of_float, Qlt, Qminus, Qplus, Qopp,
    inject_Z. simpl.
  pose proof (Z.quot_rem' n (Z.pos d)) as Hqr.
  assert (Z.abs (Z.rem n (Z.pos d)) < Z.pos d) as Hrem.
  { pose proof (Z.rem_bound_abs n (Z.pos d)). lia. }
  nia.
Qed.

Lemma is_active_antitone t1 t2 info :
  (t1 <= t2)%Q -> is_active t2 info = true -> is_active t1 info = true.
Proof.
  intros Hle. rewrite !is_active_spec. intros [Hlt Hu]. split; [|done].
  eapply Qle_lt_trans; eauto.
Qed.

Lemma active_links_later t1 t2 d :
  (t1 <= t2)%Q ->
  active_links t2 d
  = filter (λ item, is_active t2 item.2 = true) (active_links t1 d).
Proof.
  intros Hle. unfold active_links. rewrite list_filter_filter.
  apply list_filter_iff. intros [link info]. simpl. split; [|tauto].
  intros H. split; [done|]. by apply is_active_antitone with t2.
Qed.

Lemma NoDup_fst_active_links t (d : gmap string link_info) :
  NoDup (active_links t d).*1.
Proof.
  unfold active_links. pose proof (NoDup_fst_map_to_list d) as Hnd.
  induction (map_to_list d) as [|item l IH]; [done|].
  rewrite fmap_cons in Hnd. apply NoDup_cons in Hnd as [Hfresh Hnd].
  destruct (decide (is_active t item.2 = true)) as [Hact|Hact].
  - rewrite filter_cons_True by done. rewrite fmap_cons.
    apply NoDup_cons. split; [|by apply IH].
    intros (x & Hx & Hin)%list_elem_of_fmap.
    apply list_elem_of_filter in Hin as [_ Hin].
    apply Hfresh, list_elem_of_fmap. by exists x.
  - rewrite filter_cons_False by done. by apply IH.
Qed.

Lemma length_active_links t (d : gmap string link_info) :
  length (active_links t d)
  = size (filter (λ item, is_active t item.2 = true) d).
Proof.
  rewrite <- list_to_map_active_links.
  symmetry. apply map_size_list_to_map, NoDup_fst_active_links.
Qed.

(** A part of a registry has no more active links than the registry. *)
Lemma length_active_links_subseteq t (d1 d2 : gmap string link_info) :
  d1 ⊆ d2 -> (length (active_links t d1) <= length (active_links t d2))%nat.
Proof.
  intros Hsub. rewrite !length_active_links.
  by apply map_subseteq_size, map_filter_subseteq_mono.
Qed.

Section MoreHandlerFacts.

Variable ADMIN_USER_IDS : list string.
Variable LINK_EXPIRE_HOURS : Z.
Variable LINK_MEMBER_LIMIT : Z.

#[local] Abbreviation is_admin := (LinkGen.is_admin ADMIN_USER_IDS).
#[local] Abbreviation handle :=
  (LinkGen.handle ADMIN_USER_IDS LINK_EXPIRE_HOURS LINK_MEMBER_LIMIT).
#[local] Abbreviation reachable :=
  (LinkGen.reachable ADMIN_USER_IDS LINK_EXPIRE_HOURS LINK_MEMBER_LIMIT).
#[local] Abbreviation generate_invite_link :=
  (LinkGen.generate_invite_link ADMIN_USER_IDS LINK_EXPIRE_HOURS
     LINK_MEMBER_LIMIT).
#[local] Abbreviation run :=
  (LinkGen.run ADMIN_USER_IDS LINK_EXPIRE_HOURS LINK_MEMBER_LIMIT).

(** An update that is not the command that issues a link adds nothing to
    the registry, and neither does a sequence of such updates. *)
Lemma other_update_adds_nothing u self :
  is_link_command u = false ->
  link_data (handle u self).1 ⊆ link_data self.
Proof.
  destruct u as [uid | uid now iso create | uid now raises | uid args api
                | uid now | uid text now api]; simpl; try done; intros _.
  - unfold list_links.
    destruct (LinkGen.is_admin ADMIN_USER_IDS uid); simpl; [|done].
    destruct (existsb _ _); simpl; [done|].
    by destruct (active_links _ _).
  - unfold revoke_link.
    destruct (LinkGen.is_admin ADMIN_USER_IDS uid); simpl; [|done].
    destruct args as [|link args]; simpl; [done|].
    unfold process_revoke_request.
    destruct (link_data self !! link); simpl; [|done].
    apply delete_subseteq.
  - unfold revoke_all_links.
    destruct (LinkGen.is_admin ADMIN_USER_IDS uid); simpl; [|done].
    by destruct (active_links _ _).
  - unfold handle_pending_actions.
    destruct (pending_confirmations self !! uid).
    + destruct (String.eqb (lower text) "yes"); simpl; [|done].
      rewrite revoke_all_loop_filter. apply map_filter_subseteq.
    + destruct (pending_revokes self !! uid); simpl; [|done].
      unfold process_revoke_request. simpl.
      destruct (link_data self !! strip text); simpl; [|done].
      apply delete_subseteq.
Qed.

Lemma other_updates_add_nothing us self :
  Forall (λ u, is_link_command u = false) us ->
  link_data (run us self) ⊆ link_data self.
Proof.
  revert self. induction us as [|u us IH]; intros self Hall; simpl; [done|].
  apply Forall_cons in Hall as [Hu Hus].
  etrans; [by apply IH|]. by apply other_update_adds_nothing.
Qed.

(** X1.  The file always holds the registry: whatever updates the bot
    has handled since it started, the content of the file is the
    registry in memory (every handler that changes the registry saves it
    before it ends). *)
Theorem file_holds_registry self :
  reachable self -> data_file self = link_data self.
Proof.
  induction 1 as [file | self u Hreach IH]; [done|].
  destruct u as [uid | uid now iso create | uid now | uid args api
                | uid now | uid text now api]; simpl.
  - done.
  - unfold LinkGen.generate_invite_link.
    destruct (LinkGen.is_admin ADMIN_USER_IDS uid); simpl; [|done].
    by destruct (create _ _).
  - unfold list_links.
    destruct (LinkGen.is_admin ADMIN_USER_IDS uid); simpl; [|done].
    destruct (existsb _ _); simpl; [done|].
    by destruct (active_links _ _).
  - unfold revoke_link.
    destruct (LinkGen.is_admin ADMIN_USER_IDS uid); simpl; [|done].
    destruct args as [|link args]; simpl; [done|].
    unfold process_revoke_request. by destruct (link_data self !! link).
  - unfold revoke_all_links.
    destruct (LinkGen.is_admin ADMIN_USER_IDS uid); simpl; [|done].
    by destruct (active_links _ _).
  - unfold handle_pending_actions.
    destruct (pending_confirmations self !! uid).
    + by destruct (String.eqb (lower text) "yes").
    + destruct (pending_revokes self !! uid); simpl; [|done].
      unfold process_revoke_request. simpl.
      by destruct (link_data self !! strip text).
Qed.

(** X2.  Nothing a user who is not an admin sends changes the bot: the
    commands refuse, and a text finds nothing pending for that user. *)
Theorem non_admin_changes_nothing self u :
  reachable self ->
  is_admin (update_user u) = false ->
  (handle u self).1 = self.
Proof.
  intros Hreach Hadm.
  destruct u as [uid | uid now iso create | uid now | uid args api
                | uid now | uid text now api]; simpl in *.
  - done.
  - unfold LinkGen.generate_invite_link. by rewrite Hadm.
  - unfold list_links. by rewrite Hadm.
  - unfold revoke_link. by rewrite Hadm.
  - unfold revoke_all_links. by rewrite Hadm.
  - unfold handle_pending_actions.
    destruct (pending_confirmations self !! uid) as [b|] eqn:Hc.
    { assert (is_admin uid = true) as Habs; [|congruence].
      apply (reachable_pending_admin _ _ _ self Hreach). left. by eexists. }
    destruct (pending_revokes self !! uid) as [b|] eqn:Hr; [|done].
    assert (is_admin uid = true) as Habs; [|congruence].
    apply (reachable_pending_admin _ _ _ self Hreach). right. by eexists.
Qed.

(** X3.  Only the command that issues a link adds to the registry: after
    any other update the registry is a part of what it was, and after
    any update at all it has at most one record more. *)
Theorem only_link_command_adds u self :
  (is_link_command u = false ->
   link_data (handle u self).1 ⊆ link_data self)
  ∧ (size (link_data (handle u self).1) <= S (size (link_data self)))%nat.
Proof.
  assert (forall d : gmap string link_info, size d <= S (size d))%nat as Hle
    by (intros; lia).
  assert (forall link (d : gmap string link_info),
            size (delete link d) <= S (size d))%nat as Hdel.
  { intros link d.
    pose proof (map_subseteq_size _ _ (delete_subseteq d link)). lia. }
  destruct u as [uid | uid now iso create | uid now | uid args api
                | uid now | uid text now api]; simpl.
  - done.
  - split; [done|]. unfold LinkGen.generate_invite_link.
    destruct (LinkGen.is_admin ADMIN_USER_IDS uid); simpl; [|done].
    destruct (create _ _) as [link|]; simpl; [|done].
    destruct (link_data self !! link) eqn:Hl.
    + rewrite map_size_insert_Some by by eexists. lia.
    + rewrite map_size_insert_None by done. lia.
  - unfold list_links.
    destruct (LinkGen.is_admin ADMIN_USER_IDS uid); simpl; [|done].
    destruct (existsb _ _); simpl; [done|].
    by destruct (active_links _ _).
  - unfold revoke_link.
    destruct (LinkGen.is_admin ADMIN_USER_IDS uid); simpl; [|done].
    destruct args as [|link args]; simpl; [done|].
    unfold process_revoke_request.
    destruct (link_data self !! link); simpl; [|done].
    split; [intros _; apply delete_subseteq | apply Hdel].
  - unfold revoke_all_links.
    destruct (LinkGen.is_admin ADMIN_USER_IDS uid); simpl; [|done].
    by destruct (active_links _ _).
  - unfold handle_pending_actions.
    destruct (pending_confirmations self !! uid).
    + destruct (String.eqb (lower text) "yes"); simpl; [|done].
      rewrite revoke_all_loop_filter. split.
      * intros _. apply map_filter_subseteq.
      * pose proof (map_size_filter
                      (λ item, is_active now item.2 = false) (link_data self)).
        lia.
    + destruct (pending_revokes self !! uid); simpl; [|done].
      unfold process_revoke_request. simpl.
      destruct (link_data self !! strip text); simpl; [|done].
      split; [intros _; apply delete_subseteq | apply Hdel].
Qed.

(** X4.  Revoking a link a second time answers "not found" and changes
    nothing, whether or not the link was there the first time and
    whatever the platform answers. *)
Theorem revoke_twice link api1 api2 self :
  let once := (process_revoke_request link api1 self).1 in
  link_data once !! link = None
  ∧ process_revoke_request link api2 once = (once, LinkNotFound).
Proof.
  unfold process_revoke_request.
  destruct (link_data self !! link) eqn:Hl; simpl.
  - rewrite lookup_delete_eq. done.
  - rewrite Hl. done.
Qed.

(** X5.  Revoking a link that was just issued undoes the issue: the
    registry is what it was without that link, hence what it was when
    the link was new to it. *)
Theorem issue_then_revoke user_id now iso_now create link api self :
  is_admin user_id = true ->
  create LINK_MEMBER_LIMIT (int_of_float now + LINK_EXPIRE_HOURS * 3600)
  = Some link ->
  let issued := (generate_invite_link user_id now iso_now create self).1 in
  let revoked := process_revoke_request link api issued in
  revoked.2 = LinkRevoked
  ∧ link_data revoked.1 = delete link (link_data self)
  ∧ data_file revoked.1 = link_data revoked.1
  ∧ (link_data self !! link = None -> link_data revoked.1 = link_data self).
Proof.
  intros Hadm Hmint. unfold LinkGen.generate_invite_link.
  rewrite Hadm, Hmint. simpl. unfold process_revoke_request. simpl.
  rewrite lookup_insert_eq. simpl. rewrite delete_insert_eq.
  split_and!; try done. intros Hfresh. by apply delete_id.
Qed.

(** X6.  A link that is active at some time was active at every earlier
    time, and only the command that issues a link adds links.  So when
    no link is issued between the request to revoke all links and its
    confirmation, whatever else the bot handles in between, the number
    of revocations reported is at most the number of active links
    announced in the request. *)
Theorem reported_at_most_announced user_id t1 between t2 text api self :
  is_admin user_id = true ->
  active_links t1 (link_data self) ≠ [] ->
  Forall (λ u, is_link_command u = false) between ->
  (t1 <= t2)%Q ->
  lower text = "yes"%string ->
  let asked := revoke_all_links ADMIN_USER_IDS user_id t1 self in
  let later := run between asked.1 in
  awaiting_confirmation later user_id ->
  let confirmed := handle_pending_actions user_id text t2 api later in
  (forall info, is_active t2 info = true -> is_active t1 info = true)
  ∧ exists announced reported,
      asked.2 = ConfirmRevokeAll announced
      ∧ confirmed.2 = Some (RevokedAll reported)
      ∧ announced = length (active_links t1 (link_data self))
      ∧ (reported <= announced)%nat.
Proof.
  intros Hadm Hact Hbetween Hle Hyes asked later [b Hb] confirmed. split.
  { intros info. by apply is_active_antitone. }
  assert (link_data later ⊆ link_data self) as Hsub.
  { subst later. etrans; [by apply other_updates_add_nothing|].
    subst asked. unfold revoke_all_links. rewrite Hadm. simpl.
    by destruct (active_links t1 (link_data self)). }
  exists (length (active_links t1 (link_data self))),
         (revoked_count (revoke_all_loop t2 api (link_data later))).
  split_and!.
  - subst asked. unfold revoke_all_links. rewrite Hadm. simpl.
    by destruct (active_links t1 (link_data self)).
  - subst confirmed. unfold handle_pending_actions. by rewrite Hb, Hyes.
  - done.
  - rewrite revoke_all_loop_count.
    etrans; [apply length_filter|].
    etrans; [apply (length_active_links_subseteq t2 _ _ Hsub)|].
    rewrite (active_links_later t1 t2) by done. apply length_filter.
Qed.

(** X7.  After a confirmed revoke-all no link of the registry is active,
    at that time or later: a new request to revoke all links answers
    that there is nothing to revoke and leaves nothing pending, and the
    list of links is empty. *)
Theorem nothing_active_after_revoke_all user_id text now api later admin self :
  awaiting_confirmation self user_id ->
  lower text = "yes"%string ->
  (now <= later)%Q ->
  is_admin admin = true ->
  let self' := (handle_pending_actions user_id text now api self).1 in
  active_links later (link_data self') = []
  ∧ revoke_all_links ADMIN_USER_IDS admin later self'
    = (self', NoActiveLinksToRevoke)
  ∧ (forall fromtimestamp_raises,
       list_links ADMIN_USER_IDS admin later fromtimestamp_raises self'
       = (self', NoActiveLinksFound)).
Proof.
  intros [b Hb] Hyes Hle Hadm self'.
  assert (active_links later (link_data self') = []) as Hnone.
  { destruct (active_links later (link_data self')) as [|[link info] l] eqn:Hl;
      [done|].
    assert ((link, info) ∈ active_links later (link_data self')) as Hin
      by (rewrite Hl; left).
    apply elem_of_active_links in Hin as [Hin Hact].
    subst self'. unfold handle_pending_actions in Hin.
    rewrite Hb, Hyes in Hin. simpl in Hin.
    rewrite revoke_all_loop_filter in Hin.
    apply map_lookup_filter_Some in Hin as [_ Hnot]. simpl in Hnot.
    apply (is_active_antitone now later) in Hact; [congruence | done]. }
  split_and!; [done | |].
  - unfold revoke_all_links. by rewrite Hadm, Hnone.
  - intros raises. unfold list_links. by rewrite Hadm, Hnone.
Qed.

(** X8.  With links that last at least one hour and admit at least one
    member, a link is active at the moment it is issued: it is in the
    list of active links taken at that time.  With a member limit of 0
    or less an issued link is never active. *)
Theorem issued_link_is_active user_id now iso_now create link self :
  is_admin user_id = true ->
  create LINK_MEMBER_LIMIT (int_of_float now + LINK_EXPIRE_HOURS * 3600)
  = Some link ->
  let issued := (generate_invite_link user_id now iso_now create self).1 in
  (1 <= LINK_EXPIRE_HOURS -> 1 <= LINK_MEMBER_LIMIT ->
   exists info, (link, info) ∈ active_links now (link_data issued))
  ∧ (LINK_MEMBER_LIMIT <= 0 ->
     forall t info, (link, info) ∉ active_links t (link_data issued)).
Proof.
  intros Hadm Hmint. unfold LinkGen.generate_invite_link.
  rewrite Hadm, Hmint. simpl. split.
  - intros Hh Hl. eexists. apply elem_of_active_links.
    split; [apply lookup_insert_eq|].
    apply is_active_spec. simpl. split; [|lia].
    pose proof (int_of_float_above now) as Habove.
    rewrite inject_Z_plus.
    assert (1 <= inject_Z (LINK_EXPIRE_HOURS * 3600))%Q as Hone.
    { change 1%Q with (inject_Z 1). rewrite <- Zle_Qle. lia. }
    lra.
  - intros Hl t info Hin.
    apply elem_of_active_links in Hin as [Hin Hact].
    rewrite lookup_insert_eq in Hin. injection Hin as <-.
    apply is_active_spec in Hact as [_ Hu]. simpl in Hu. lia.
Qed.

(** X9.  The link a user sends after an unnamed revoke-one is trimmed:
    the same text with whitespace before and after it does the same. *)
Theorem revoke_target_is_trimmed user_id before text after now api self :
  ¬ awaiting_confirmation self user_id ->
  all_space before = true ->
  all_space after = true ->
  handle_pending_actions user_id (before +:+ text +:+ after) now api self
  = handle_pending_actions user_id text now api self.
Proof.
  intros Hc Hb Ha. unfold handle_pending_actions.
  destruct (pending_confirmations self !! user_id) eqn:Hpc.
  { exfalso. apply Hc. by eexists. }
  by rewrite strip_padded.
Qed.

(** X10.  A two-step request takes one text: when a user is not awaiting
    both a confirmation and a link, the text that follows the one that
    answered the request finds nothing pending, gets no answer and
    changes nothing. *)
Theorem text_after_answer_is_ordinary
    user_id text1 now1 api1 text2 now2 api2 self :
  ¬ (awaiting_confirmation self user_id ∧ awaiting_target self user_id) ->
  let answered := (handle_pending_actions user_id text1 now1 api1 self).1 in
  handle_pending_actions user_id text2 now2 api2 answered = (answered, None).
Proof.
  intros Hnot answered.
  assert (pending_confirmations answered !! user_id = None
          ∧ pending_revokes answered !! user_id = None) as [Hc Hr].
  { subst answered.
    destruct (decide (awaiting_confirmation self user_id)) as [Hac|Hac].
    - destruct (handle_pending_actions_confirming user_id text1 now1 api1
                  self Hac) as [-> ->].
      rewrite lookup_delete_eq. split; [done|].
      destruct (pending_revokes self !! user_id) eqn:Hpr; [|done].
      exfalso. apply Hnot. split; [done|]. by eexists.
    - destruct (handle_pending_actions_not_confirming user_id text1 now1 api1
                  self Hac) as [-> ->].
      rewrite lookup_delete_eq. split; [|done].
      destruct (pending_confirmations self !! user_id) eqn:Hpc; [|done].
      exfalso. apply Hac. by eexists. }
  unfold handle_pending_actions. by rewrite Hc, Hr.
Qed.

End MoreHandlerFacts.

(** *** The properties on the small registry *)

Lemma file_holds_registry_witness :
  LinkGen.reachable example_admins 24 1 example_both_pending
  ∧ data_file example_both_pending = link_data example_both_pending.
Proof.
  assert (LinkGen.reachable example_admins 24 1 example_both_pending) as Hr
    by (apply reachable_run; constructor).
  split; [done|]. by apply (file_holds_registry example_admins 24 1).
Defined.

Lemma non_admin_changes_nothing_witness :
  LinkGen.reachable example_admins 24 1 example_both_pending
  ∧ is_admin example_admins (update_user (Text 2 "yes" example_now revoke_fails))
    = false
  ∧ (handle example_admins 24 1 (Text 2 "yes" example_now revoke_fails)
       example_both_pending).1 = example_both_pending.
Proof.
  assert (LinkGen.reachable example_admins 24 1 example_both_pending) as Hr
    by (apply reachable_run; constructor).
  split_and!; [done | reflexivity |].
  apply (non_admin_changes_nothing example_admins 24 1); [done | reflexivity].
Defined.

Lemma only_link_command_adds_witness :
  is_link_command (Revoke 1 ["b"%string] revoke_fails) = false
  ∧ link_data (handle example_admins 24 1 (Revoke 1 ["b"%string] revoke_fails)
                 example_confirming).1 ⊆ link_data example_confirming.
Proof.
  split; [reflexivity|].
  apply (only_link_command_adds example_admins 24 1). reflexivity.
Defined.

Lemma issue_then_revoke_witness :
  is_admin example_admins 1 = true
  ∧ mint_L 1 (int_of_float example_now + 24 * 3600) = Some "L"%string
  ∧ link_data example_confirming !! "L"%string = None
  ∧ link_data
      (process_revoke_request "L" revoke_fails
         (generate_invite_link example_admins 24 1 1 example_now
            "2024-05-01T10:00:00" mint_L example_confirming).1).1
    = link_data example_confirming.
Proof.
  split_and!; [reflexivity | reflexivity | reflexivity |].
  apply (issue_then_revoke example_admins 24 1 1 example_now
           "2024-05-01T10:00:00" mint_L "L" revoke_fails example_confirming);
    reflexivity.
Defined.

Lemma reported_at_most_announced_witness :
  is_admin example_admins 1 = true
  ∧ active_links example_now (link_data example_confirming) ≠ []
  ∧ Forall (λ u, is_link_command u = false)
      [Revoke 1 ["c"%string] revoke_fails; Text 2 "hello" example_now revoke_fails]
  ∧ (example_now <= example_later)%Q
  ∧ lower "Yes" = "yes"%string
  ∧ forall info,
      is_active example_later info = true -> is_active example_now info = true.
Proof.
  assert (active_links example_now (link_data example_confirming) ≠ []) as Hact
    by (vm_compute; discriminate).
  assert (example_now <= example_later)%Q as Hle
    by (unfold Qle; simpl; lia).
  assert (Forall (λ u, is_link_command u = false)
            [Revoke 1 ["c"%string] revoke_fails;
             Text 2 "hello" example_now revoke_fails]) as Hbetween
    by (repeat constructor).
  split_and!; [reflexivity | done | done | done | reflexivity |].
  apply (reported_at_most_announced example_admins 24 1 1 example_now
           [Revoke 1 ["c"%string] revoke_fails;
            Text 2 "hello" example_now revoke_fails]
           example_later "Yes" revoke_fails example_confirming);
    [reflexivity | done | done | done | reflexivity |].
  vm_compute. by eexists.
Defined.

Lemma nothing_active_after_revoke_all_witness :
  awaiting_confirmation example_confirming 1
  ∧ (example_now <= example_later)%Q
  ∧ active_links example_later
      (link_data (handle_pending_actions 1 "yes" example_now revoke_fails
                    example_confirming).1) = [].
Proof.
  assert (awaiting_confirmation example_confirming 1) as Hc
    by (vm_compute; by eexists).
  assert (example_now <= example_later)%Q as Hle
    by (unfold Qle; simpl; lia).
  split_and!; [done | done |].
  apply (nothing_active_after_revoke_all example_admins 1 "yes" example_now
           revoke_fails example_later 1 example_confirming);
    [done | reflexivity | done | reflexivity].
Defined.

Lemma issued_link_is_active_witness :
  is_admin example_admins 1 = true
  ∧ mint_L 1 (int_of_float example_now + 24 * 3600) = Some "L"%string
  ∧ exists info,
      (("L"%string, info)
         ∈ active_links example_now
             (link_data (generate_invite_link example_admins 24 1 1 example_now
                           "2024-05-01T10:00:00" mint_L (init ∅)).1)).
Proof.
  split_and!; [reflexivity | reflexivity |].
  apply (issued_link_is_active example_admins 24 1 1 example_now
           "2024-05-01T10:00:00" mint_L "L" (init ∅));
    [reflexivity | reflexivity | lia | lia].
Defined.

Lemma revoke_target_is_trimmed_witness :
  ¬ awaiting_confirmation example_targeting 1
  ∧ all_space "  " = true
  ∧ link_data (handle_pending_actions 1 ("  " +:+ "b" +:+ " ") example_now
                 revoke_fails example_targeting).1 !! "b"%string = None.
Proof.
  assert (¬ awaiting_confirmation example_targeting 1) as Hc
    by (intros [b Hb]; vm_compute in Hb; discriminate).
  split_and!; [done | reflexivity |].
  rewrite (revoke_target_is_trimmed 1 "  " "b" " " example_now revoke_fails
             example_targeting Hc); reflexivity.
Defined.

Lemma text_after_answer_is_ordinary_witness :
  ¬ (awaiting_confirmation example_confirming 1
     ∧ awaiting_target example_confirming 1)
  ∧ (handle_pending_actions 1 "yes" example_later revoke_fails
       (handle_pending_actions 1 "no" example_now revoke_fails
          example_confirming).1).2 = None.
Proof.
  assert (¬ (awaiting_confirmation example_confirming 1
             ∧ awaiting_target example_confirming 1)) as Hnot
    by (intros [_ [b Hb]]; vm_compute in Hb; discriminate).
  split; [done|].
  by rewrite (text_after_answer_is_ordinary 1 "no" example_now revoke_fails
                "yes" example_later revoke_fails example_confirming Hnot).
Defined.

End LinkGenMore.

(** ** More on [main.py] *)

Module MainMore.
Import Main MainProps.

(** *** Joins *)

Lemma track_step_is_Some clock chat acc new_member chat' :
  is_Some (acc.1 !! chat') ->
  is_Some ((track_step clock chat acc new_member).1 !! chat').
Proof.
  unfold track_step. destruct (is_bot new_member); [done|]. simpl.
  apply set_join_date_is_Some.
Qed.

Lemma track_fold_is_Some clock chat members acc chat' :
  is_Some (acc.1 !! chat') ->
  is_Some ((foldl (track_step clock chat) acc members).1 !! chat').
Proof.
  revert acc. induction members as [|m members IH]; intros acc H; simpl;
    [done|].
  by apply IH, track_step_is_Some.
Qed.

Lemma track_fold_counter clock chat members acc :
  (foldl (track_step clock chat) acc members).2
  = (acc.2 + length (filter (λ u, is_bot u = false) members))%nat.
Proof.
  revert acc. induction members as [|m members IH]; intros acc; simpl; [lia|].
  rewrite IH. unfold track_step. destruct (is_bot m) eqn:Hbot; simpl.
  - rewrite filter_cons_False by congruence. done.
  - rewrite filter_cons_True by done. simpl. lia.
Qed.

(** Each member of the message that is not a bot has, after the loop, a
    join date read from the clock during the loop. *)
Lemma track_fold_recorded clock chat members acc new_member :
  is_Some (acc.1 !! chat) ->
  new_member ∈ members ->
  is_bot new_member = false ->
  exists k,
    (acc.2 <= k < acc.2 + length (filter (λ u, is_bot u = false) members))%nat
    ∧ joined_at (foldl (track_step clock chat) acc members).1 chat
                (str (id new_member)) = Some (clock k).
Proof.
  intros Hc. induction members as [|m members IH] using rev_ind;
    intros Hin Hbot.
  - by apply elem_of_nil in Hin.
  - rewrite foldl_app, filter_app, length_app. simpl.
    pose proof (track_fold_counter clock chat members acc) as Hk.
    pose proof (track_fold_is_Some clock chat members acc chat Hc) as Hsome.
    unfold track_step at 1.
    destruct (is_bot m) eqn:Hm.
    + rewrite filter_cons_False, filter_nil by congruence. simpl.
      apply elem_of_app in Hin as [Hin|Hin].
      * destruct (IH Hin Hbot) as (k & Hk' & Hj). exists k. split; [lia|done].
      * apply list_elem_of_singleton in Hin. congruence.
    + rewrite filter_cons_True, filter_nil by done. simpl.
      rewrite joined_at_set_join_date by done.
      destruct (decide (str (id m) = str (id new_member))) as [Heq|Hne].
      * rewrite decide_True by done. eexists. split; [|done]. lia.
      * rewrite decide_False by (intros [_ ?]; done).
        apply elem_of_app in Hin as [Hin|Hin].
        -- destruct (IH Hin Hbot) as (k & Hk' & Hj). exists k.
           split; [lia|done].
        -- apply list_elem_of_singleton in Hin. by subst.
Qed.

(** *** [init_members] *)

Lemma init_step_is_Some chat t d member chat' :
  is_Some (d !! chat') -> is_Some (init_step chat t d member !! chat').
Proof.
  unfold init_step. destruct (is_bot member); [done|].
  apply set_join_date_is_Some.
Qed.

Lemma init_fold_is_Some chat t members d chat' :
  is_Some (d !! chat') ->
  is_Some (foldl (init_step chat t) d members !! chat').
Proof.
  revert d. induction members as [|m members IH]; intros d H; simpl; [done|].
  by apply IH, init_step_is_Some.
Qed.

Lemma init_fold_joined_at chat t members d chat' user' :
  is_Some (d !! chat) ->
  joined_at (foldl (init_step chat t) d members) chat' user'
  = if decide (chat = chat' ∧ Exists (fetched_as user') members)
    then Some t else joined_at d chat' user'.
Proof.
  revert d. induction members as [|m members IH]; intros d Hc; simpl.
  - rewrite decide_False; [done|]. intros [_ H]. by apply Exists_nil in H.
  - rewrite IH by by apply init_step_is_Some.
    destruct (decide (chat = chat' ∧ Exists (fetched_as user') members))
      as [[-> Hex]|Hnot].
    + rewrite decide_True; [done|]. split; [done|]. by right.
    + unfold init_step. destruct (is_bot m) eqn:Hbot.
      * destruct (decide (chat = chat' ∧ Exists (fetched_as user') (m :: members)))
          as [[-> Hex]|_]; [|done].
        exfalso. apply Hnot. split; [done|].
        apply Exists_cons in Hex as [[Hb _]|Hex]; [congruence|done].
      * rewrite joined_at_set_join_date by done.
        destruct (decide (chat = chat' ∧ str (id m) = user')) as [[-> Hu]|Hne].
        -- rewrite decide_True; [done|]. split; [done|]. by left.
        -- rewrite decide_False; [done|]. intros [-> Hex].
           apply Exists_cons in Hex as [[_ Hu]|Hex].
           ++ by apply Hne.
           ++ by apply Hnot.
Qed.

Lemma member_count_set_join_date chat user t d chat' :
  (member_count d chat' <= member_count (set_join_date chat user t d) chat')%nat.
Proof.
  unfold member_count, set_join_date. rewrite lookup_alter.
  destruct (decide (chat = chat')) as [<-|Hne]; [|done].
  destruct (d !! chat) as [m|]; simpl; [|done].
  destruct (m !! user) eqn:Hu.
  - rewrite map_size_insert_Some by by eexists. done.
  - rewrite map_size_insert_None by done. lia.
Qed.

Lemma member_count_init_fold chat t members d chat' :
  (member_count d chat'
   <= member_count (foldl (init_step chat t) d members) chat')%nat.
Proof.
  revert d. induction members as [|m members IH]; intros d; simpl; [done|].
  etrans; [|apply IH]. unfold init_step. destruct (is_bot m); [done|].
  apply member_count_set_join_date.
Qed.

Lemma member_count_ensure_chat chat d chat' :
  member_count (ensure_chat chat d) chat' = member_count d chat'.
Proof.
  unfold member_count, ensure_chat.
  destruct (d !! chat) eqn:Hc; [done|].
  rewrite lookup_insert.
  destruct (decide (chat = chat')) as [<-|Hne]; [by rewrite Hc | done].
Qed.

(** *** The properties *)

Section MoreCommandFacts.

Variable ADMIN_USER_IDS : list string.

#[local] Abbreviation is_admin := (Main.is_admin ADMIN_USER_IDS).
#[local] Abbreviation handle := (Main.handle ADMIN_USER_IDS).
#[local] Abbreviation reachable := (Main.reachable ADMIN_USER_IDS).
#[local] Abbreviation init_members := (Main.init_members ADMIN_USER_IDS).

(** X11.  Started on a file in which every join date is one that
    [datetime.fromisoformat] reads as a naive date, as are all the dates
    the bot writes, the file always holds the registry of join dates:
    whatever joins, jobs and commands the bot has handled since, the
    content of the file is the registry in memory. *)
Theorem file_holds_join_dates self :
  reachable self -> data_file self = join_data self.
Proof.
  induction 1 as [file | self e Hreach IH]; [done|].
  destruct e as [clock update | now ban unban | uid now ban unban
                | uid chat fetched t | chat now | chat clock | ]; simpl;
    try done.
  - unfold track_new_member.
    destruct (chat_member update) as [cm|].
    + by destruct (String.eqb (new_chat_member_status cm) "member").
    + destruct (message update) as [m|]; [|done].
      by destruct (new_chat_members m).
  - unfold manual_remove_command.
    by destruct (Main.is_admin ADMIN_USER_IDS (str uid)).
  - unfold Main.init_members.
    destruct (Main.is_admin ADMIN_USER_IDS (str uid)); simpl; [|done].
    by destruct fetched.
Qed.

(** X17.  For an admin, [init_members] gives the time of the command as
    join date to every fetched member that is not a bot, and to nobody
    else: the other dates of the registry stay, also those of members of
    the chat that were not fetched.  The count it reports is the number
    of members tracked for the chat afterwards, which is never less than
    before.  Nothing changes when the platform fails or the user is no
    admin. *)
Theorem init_members_stamps_fetched user_id chat fetched current_time self :
  let r := init_members user_id chat fetched current_time self in
  (is_admin (str user_id) = false -> r = (self, OnlyAdmin))
  ∧ (fetched = None -> r.1 = self)
  ∧ (is_admin (str user_id) = true ->
     forall members, fetched = Some members ->
       (forall member, member ∈ members -> is_bot member = false ->
          joined_at (join_data r.1) (str chat) (str (id member))
          = Some current_time)
       ∧ (forall chat' user',
            ¬ (str chat = chat' ∧ Exists (fetched_as user') members) ->
            joined_at (join_data r.1) chat' user'
            = joined_at (join_data self) chat' user')
       ∧ r.2 = Initialized (member_count (join_data r.1) (str chat))
       ∧ (member_count (join_data self) (str chat)
          <= member_count (join_data r.1) (str chat))%nat
       ∧ data_file r.1 = join_data r.1).
Proof.
  unfold Main.init_members. split_and!.
  - by intros ->.
  - intros ->. by destruct (Main.is_admin ADMIN_USER_IDS (str user_id)).
  - intros -> members ->. simpl. split_and!; try done.
    + intros member Hin Hbot.
      rewrite init_fold_joined_at by apply ensure_chat_is_Some.
      rewrite decide_True; [done|]. split; [done|].
      apply Exists_exists. by exists member.
    + intros chat' user' Hnot.
      rewrite init_fold_joined_at by apply ensure_chat_is_Some.
      rewrite decide_False by done. apply joined_at_ensure_chat.
    + etrans; [|apply member_count_init_fold].
      by rewrite member_count_ensure_chat.
Qed.

End MoreCommandFacts.

Section MoreSweepFacts.

Variable ban_chat_member : string -> string -> api_result.
Variable unban_chat_member : string -> string -> api_result.

#[local] Abbreviation kick := (Main.kick ban_chat_member unban_chat_member).
#[local] Abbreviation sweep :=
  (remove_expired_members ban_chat_member unban_chat_member).

(** X12.  The job only removes members: it keeps every chat of the
    registry, also one it has emptied; a join date found after it is the
    one that was there before; and no chat tracks more members than
    before. *)
Theorem sweep_only_removes_members now self :
  let self' := (sweep now self).1 in
  dom (join_data self') = dom (join_data self)
  ∧ (forall chat user t,
       joined_at (join_data self') chat user = Some t ->
       joined_at (join_data self) chat user = Some t)
  ∧ (forall chat,
       (member_count (join_data self') chat
        <= member_count (join_data self) chat)%nat).
Proof.
  split_and!.
  - apply set_eq. intros chat. rewrite !elem_of_dom, sweep_data.
    by rewrite fmap_is_Some.
  - intros chat user t. rewrite sweep_joined_at.
    destruct (joined_at (join_data self) chat user) as [t0|]; [|done].
    by destruct (removable _ _ _ _ _).
  - intros chat. unfold member_count. rewrite sweep_data.
    destruct (join_data self !! chat) as [m|]; simpl; [|done].
    apply map_size_filter.
Qed.

(** X14.  A join starts the thirty days anew.  After a [chat_member]
    update with status ['member'], whatever date the registry had for
    the user, a run of the job up to thirty days after the join keeps
    the member, and a run later than that removes the member when the
    platform accepts. *)
Theorem join_starts_retention clock update cm now self :
  chat_member update = Some cm ->
  new_chat_member_status cm = "member"%string ->
  let chat := str (chat_id cm) in
  let user := str (id (new_chat_member_user cm)) in
  let swept := (sweep now (track_new_member clock update self)).1 in
  (now - clock 0%nat <= timedelta_days 30 ->
   joined_at (join_data swept) chat user = Some (clock 0%nat))
  ∧ (now - clock 0%nat > timedelta_days 30 ->
     kick chat user = ApiOk ->
     joined_at (join_data swept) chat user = None).
Proof.
  intros Hcm Hstatus chat user swept. subst swept.
  assert (joined_at (join_data (track_new_member clock update self)) chat user
          = Some (clock 0%nat)) as Hj.
  { unfold track_new_member. rewrite Hcm, Hstatus. simpl.
    rewrite joined_at_set_join_date by apply ensure_chat_is_Some.
    by rewrite decide_True. }
  rewrite sweep_joined_at, Hj. unfold removable. simpl. split.
  - intros Hle.
    assert (is_expired (now - timedelta_days 30) (clock 0%nat) = false) as ->;
      [|done].
    apply not_true_is_false. rewrite is_expired_spec. lia.
  - intros Hgt Hkick.
    assert (is_expired (now - timedelta_days 30) (clock 0%nat) = true) as ->
      by (by apply is_expired_spec).
    by rewrite Hkick.
Qed.

End MoreSweepFacts.

(** X13.  A removal that failed is tried again: a member whose removal
    the platform refused in one run of the job is removed by a later run
    in which the platform accepts, and that run counts it. *)
Theorem failed_removal_is_retried ban1 unban1 ban2 unban2 now1 now2
    chat user t self :
  joined_at (join_data self) chat user = Some t ->
  is_expired (now1 - timedelta_days 30) t = true ->
  kick ban1 unban1 chat user = ApiTelegramError ->
  now1 <= now2 ->
  kick ban2 unban2 chat user = ApiOk ->
  let first := remove_expired_members ban1 unban1 now1 self in
  let second := remove_expired_members ban2 unban2 now2 first.1 in
  joined_at (join_data first.1) chat user = Some t
  ∧ joined_at (join_data second.1) chat user = None
  ∧ (1 <= members_removed second.2)%nat.
Proof.
  intros Hj Hexp Hk1 Hle Hk2 first second.
  assert (joined_at (join_data first.1) chat user = Some t) as Hfirst.
  { subst first. rewrite sweep_joined_at, Hj. unfold removable. simpl.
    by rewrite Hk1, andb_false_r. }
  assert (is_expired (now2 - timedelta_days 30) t = true) as Hexp2.
  { unfold is_expired in *. apply Z.ltb_lt. apply Z.ltb_lt in Hexp. lia. }
  split_and!; [done | |].
  - subst second. rewrite sweep_joined_at, Hfirst. unfold removable. simpl.
    by rewrite Hexp2, Hk2.
  - destruct (sweep_counts ban2 unban2 now2 first.1) as [Hr _].
    fold second in Hr. rewrite Hr.
    assert ((chat, (user, t))
              ∈ filter (kicked ban2 unban2)
                  (expired_members (now2 - timedelta_days 30)
                     (join_data first.1))) as Hin.
    { apply list_elem_of_filter. split; [done|].
      by apply elem_of_expired_members. }
    destruct (filter _ _) as [|x l]; [by apply elem_of_nil in Hin|].
    simpl. lia.
Qed.

(** X15.  A [chat_member] update with status ['member'] changes the join
    date of that user in that chat and no other date of the registry;
    with any other status (a member who left, was restricted or banned)
    it changes nothing, so the record of a member who left stays. *)
Theorem chat_member_update_touches_one_date clock update cm self :
  chat_member update = Some cm ->
  let self' := track_new_member clock update self in
  (new_chat_member_status cm = "member"%string ->
   (forall chat' user',
      joined_at (join_data self') chat' user'
      = if decide (str (chat_id cm) = chat'
                   ∧ str (id (new_chat_member_user cm)) = user')
        then Some (clock 0%nat)
        else joined_at (join_data self) chat' user')
   ∧ (forall other : Z,
        other ≠ id (new_chat_member_user cm) ->
        joined_at (join_data self') (str (chat_id cm)) (str other)
        = joined_at (join_data self) (str (chat_id cm)) (str other)))
  ∧ (new_chat_member_status cm ≠ "member"%string -> self' = self).
Proof.
  intros Hcm self'. subst self'. unfold track_new_member. rewrite Hcm.
  split.
  - intros ->. simpl.
    assert (forall chat' user',
              joined_at
                (set_join_date (str (chat_id cm))
                   (str (id (new_chat_member_user cm))) (clock 0%nat)
                   (ensure_chat (str (chat_id cm)) (join_data self)))
                chat' user'
              = if decide (str (chat_id cm) = chat'
                           ∧ str (id (new_chat_member_user cm)) = user')
                then Some (clock 0%nat)
                else joined_at (join_data self) chat' user') as Hall.
    { intros chat' user'.
      rewrite joined_at_set_join_date by apply ensure_chat_is_Some.
      case_decide; [done|]. apply joined_at_ensure_chat. }
    split; [done|]. intros other Hne. rewrite Hall.
    rewrite decide_False; [done|]. intros [_ Heq].
    apply Hne. symmetry. by apply (inj (pretty : Z -> string)).
  - intros Hne. apply String.eqb_neq in Hne. by rewrite Hne.
Qed.

(** X16.  A message with [new_chat_members] gives every member of it
    that is not a bot a join date, read from the clock while the message
    is handled, and saves the registry. *)
Theorem message_records_every_non_bot clock update m self new_member :
  chat_member update = None ->
  message update = Some m ->
  new_member ∈ new_chat_members m ->
  is_bot new_member = false ->
  let self' := track_new_member clock update self in
  (exists k,
     (k < length (filter (λ u, is_bot u = false) (new_chat_members m)))%nat
     ∧ joined_at (join_data self') (str (message_chat_id m))
                 (str (id new_member)) = Some (clock k))
  ∧ data_file self' = join_data self'.
Proof.
  intros Hcm Hm Hin Hbot self'. subst self'.
  unfold track_new_member. rewrite Hcm, Hm.
  destruct (new_chat_members m) as [|x l] eqn:Hl;
    [by apply elem_of_nil in Hin|].
  cbn [join_data data_file save_data set_join_data]. split; [|done].
  destruct (track_fold_recorded clock (str (message_chat_id m)) (x :: l)
              (ensure_chat (str (message_chat_id m)) (join_data self), 0%nat)
              new_member) as (k & Hk & Hj); [apply ensure_chat_is_Some|done..|].
  exists k. split; [simpl in Hk; lia | done].
Qed.

(** X18.  The members that [init_members] stamps are kept by every run
    of the job up to thirty days after the command. *)
Theorem initialised_members_are_kept ADMIN_USER_IDS user_id chat members
    current_time ban unban now member self :
  Main.is_admin ADMIN_USER_IDS (str user_id) = true ->
  member ∈ members ->
  is_bot member = false ->
  now - current_time <= timedelta_days 30 ->
  let initialised :=
    (Main.init_members ADMIN_USER_IDS user_id chat (Some members)
       current_time self).1 in
  joined_at (join_data (remove_expired_members ban unban now initialised).1)
            (str chat) (str (id member)) = Some current_time.
Proof.
  intros Hadm Hin Hbot Hle initialised.
  assert (joined_at (join_data initialised) (str chat) (str (id member))
          = Some current_time) as Hj.
  { subst initialised. unfold Main.init_members. rewrite Hadm. simpl.
    rewrite init_fold_joined_at by apply ensure_chat_is_Some.
    rewrite decide_True; [done|]. split; [done|].
    apply Exists_exists. by exists member. }
  rewrite sweep_joined_at, Hj. unfold removable. simpl.
  assert (is_expired (now - timedelta_days 30) current_time = false) as ->;
    [|done].
  apply not_true_is_false. rewrite is_expired_spec. lia.
Qed.

(** X19.  The next cleanup that [status_command] shows is 02:00 of the
    day after the command: more than 2 hours and at most 26 hours ahead.
    Before 02:00 the 02:00 of the same day is still to come and is not
    the time shown. *)
Theorem status_shows_tomorrows_cleanup chat now self :
  exists count next,
    status_command chat now self = BotStatus count next
    ∧ count = member_count (join_data self) (str chat)
    ∧ next mod timedelta_days 1 = timedelta_hours 2
    ∧ timedelta_hours 2 < next - now <= timedelta_hours 26
    ∧ (now mod timedelta_days 1 < timedelta_hours 2 ->
       now < midnight now + timedelta_hours 2 < next).
Proof.
  eexists _, _. split; [reflexivity|]. split; [done|].
  unfold next_cleanup, midnight.
  pose proof (Z.mod_pos_bound now (timedelta_days 1)) as Hmod.
  pose proof (Z.div_mod now (timedelta_days 1)) as Hdiv.
  unfold timedelta_days, timedelta_hours in *. split_and!.
  - replace (now - now mod (1 * 86400 * 1000000) + 2 * 3600 * 1000000
             + 1 * 86400 * 1000000)
      with (2 * 3600 * 1000000
            + (now / (1 * 86400 * 1000000) + 1) * (1 * 86400 * 1000000))
      by lia.
    rewrite Z.mod_add by lia. apply Z.mod_small. lia.
  - lia.
  - lia.
  - lia.
Qed.

(** X20.  [debug_command] shows at most ten members of the chat: ten of
    them and the number of the others when the chat tracks more than
    ten, all of them otherwise; each one shown is in the registry with
    that join date.  A chat that is not tracked or has no member gets
    the answer that no member is tracked. *)
Theorem debug_shows_at_most_ten chat clock self :
  match debug_command chat clock self with
  | DebugInfo count shown more =>
      count = member_count (join_data self) (str chat)
      ∧ (0 < count)%nat
      ∧ length shown = Nat.min 10 count
      ∧ more = (if (10 <? count)%nat then Some (count - 10)%nat else None)
      ∧ (length shown + default 0%nat more)%nat = count
      ∧ (forall user t days, (user, t, days) ∈ shown ->
           joined_at (join_data self) (str chat) user = Some t
           ∧ exists k, (k < 10)%nat ∧ days = days_in_group (clock k) t)
  | DebugNoMembers count =>
      count = 0%nat ∧ member_count (join_data self) (str chat) = 0%nat
  | _ => False
  end.
Proof.
  unfold debug_command, member_count, joined_at.
  destruct (join_data self !! str chat) as [members|] eqn:Hc;
    cbn -[Nat.min Nat.ltb take imap size]; [|by rewrite map_size_empty].
  case_bool_decide as He.
  { subst members. by rewrite map_size_empty. }
  assert (size members ≠ 0)%nat as Hsize by by rewrite map_size_empty_iff.
  split_and!; [done | lia | | done | |].
  - rewrite length_imap, length_take, length_map_to_list. lia.
  - rewrite length_imap, length_take, length_map_to_list.
    destruct (10 <? size members)%nat eqn:Hlt; cbv [from_option Datatypes.id].
    + apply Nat.ltb_lt in Hlt. lia.
    + apply Nat.ltb_ge in Hlt. lia.
  - intros user t days Hin.
    apply elem_of_lookup_imap in Hin as (k & [u t'] & Heq & Hk).
    injection Heq as -> -> ->. simpl.
    pose proof (lookup_lt_Some _ _ _ Hk) as Hlen.
    rewrite length_take in Hlen.
    apply lookup_take_Some in Hk as [Hk _].
    apply list_elem_of_lookup_2, elem_of_map_to_list in Hk.
    split; [done|]. exists k. split; [lia|done].
Qed.

(** X21.  The days that [debug_command] shows and the test of the job
    agree: a member is expired exactly when it has thirty days or more
    in the group and did not join exactly thirty days ago. *)
Theorem expired_iff_thirty_days_shown now join_date :
  is_expired (now - timedelta_days 30) join_date = true
  <-> 30 <= days_in_group now join_date
      ∧ now - join_date ≠ timedelta_days 30.
Proof.
  rewrite is_expired_spec. unfold days_in_group, timedelta_days.
  pose proof (Z.div_mod (now - join_date) (1 * 86400 * 1000000)) as Hdiv.
  pose proof (Z.mod_pos_bound (now - join_date) (1 * 86400 * 1000000)) as Hmod.
  split.
  - intros Hgt. split; [|lia]. apply Z.div_le_lower_bound; lia.
  - intros [Hdays Hne].
    assert (30 * (1 * 86400 * 1000000) <= now - join_date); [|lia].
    nia.
Qed.

(** *** The properties on the small registry *)

Lemma file_holds_join_dates_witness :
  Main.reachable example_admins
    (Main.handle example_admins (Joined example_clock example_newcomers)
       example_bot).1
  ∧ data_file (track_new_member example_clock example_newcomers example_bot)
    = join_data (track_new_member example_clock example_newcomers example_bot).
Proof.
  assert (Main.reachable example_admins
            (Main.handle example_admins (Joined example_clock example_newcomers)
               example_bot).1) as Hr
    by (constructor; constructor).
  split; [done|]. apply (file_holds_join_dates example_admins _ Hr).
Defined.

Lemma failed_removal_is_retried_witness :
  joined_at (join_data example_bot) "-100" "10"
  = Some (example_now - timedelta_days 40)
  ∧ kick ban_refuses_10 api_accepts "-100" "10" = ApiTelegramError
  ∧ kick api_accepts api_accepts "-100" "10" = ApiOk
  ∧ joined_at
      (join_data
         (remove_expired_members api_accepts api_accepts
            (example_now + timedelta_days 1)
            (remove_expired_members ban_refuses_10 api_accepts example_now
               example_bot).1).1) "-100" "10" = None.
Proof.
  split_and!; [reflexivity | reflexivity | reflexivity |].
  apply (failed_removal_is_retried ban_refuses_10 api_accepts api_accepts
           api_accepts example_now (example_now + timedelta_days 1)
           "-100" "10" (example_now - timedelta_days 40) example_bot);
    [reflexivity | reflexivity | reflexivity | unfold timedelta_days; lia
    | reflexivity].
Defined.

Lemma join_starts_retention_witness :
  chat_member (member_update (-100) 7 "member")
  = Some {| chat_id := -100;
            new_chat_member_user := {| id := 7; is_bot := false |};
            new_chat_member_status := "member" |}
  ∧ example_now + timedelta_days 30 - example_clock 0 <= timedelta_days 30
  ∧ joined_at
      (join_data
         (remove_expired_members api_accepts api_accepts
            (example_now + timedelta_days 30)
            (track_new_member example_clock (member_update (-100) 7 "member")
               example_bot)).1) "-100" "7" = Some (example_clock 0).
Proof.
  assert (example_now + timedelta_days 30 - example_clock 0
          <= timedelta_days 30) as Hle
    by (unfold example_clock; simpl; lia).
  split_and!; [reflexivity | done |].
  apply (join_starts_retention api_accepts api_accepts example_clock
           (member_update (-100) 7 "member")
           {| chat_id := -100;
              new_chat_member_user := {| id := 7; is_bot := false |};
              new_chat_member_status := "member" |}
           (example_now + timedelta_days 30) example_bot);
    [reflexivity | reflexivity | done].
Defined.

Lemma chat_member_update_touches_one_date_witness :
  chat_member (member_update (-100) 7 "left")
  = Some {| chat_id := -100;
            new_chat_member_user := {| id := 7; is_bot := false |};
            new_chat_member_status := "left" |}
  ∧ track_new_member example_clock (member_update (-100) 7 "left") example_bot
    = example_bot
  ∧ joined_at
      (join_data (track_new_member example_clock
                    (member_update (-100) 7 "member") example_bot))
      "-100" (str 8)
    = joined_at (join_data example_bot) "-100" (str 8).
Proof.
  split_and!; [reflexivity | |].
  - apply (chat_member_update_touches_one_date example_clock
             (member_update (-100) 7 "left")
             {| chat_id := -100;
                new_chat_member_user := {| id := 7; is_bot := false |};
                new_chat_member_status := "left" |} example_bot);
      [reflexivity | discriminate].
  - apply (chat_member_update_touches_one_date example_clock
             (member_update (-100) 7 "member")
             {| chat_id := -100;
                new_chat_member_user := {| id := 7; is_bot := false |};
                new_chat_member_status := "member" |} example_bot);
      [reflexivity | reflexivity | simpl; lia].
Defined.

Lemma message_records_every_non_bot_witness :
  chat_member example_newcomers = None
  ∧ {| id := 5; is_bot := false |}
      ∈ [example_robot; {| id := 5; is_bot := false |}]
  ∧ exists k,
      (k < 1)%nat
      ∧ joined_at
          (join_data (track_new_member example_clock example_newcomers
                        example_bot)) "-100" "5" = Some (example_clock k).
Proof.
  assert ({| id := 5; is_bot := false |}
            ∈ [example_robot; {| id := 5; is_bot := false |}]) as Hin
    by (right; left).
  split_and!; [reflexivity | done |].
  apply (message_records_every_non_bot example_clock example_newcomers
           {| message_chat_id := -100;
              new_chat_members := [example_robot;
                                   {| id := 5; is_bot := false |}] |}
           example_bot {| id := 5; is_bot := false |});
    [reflexivity | reflexivity | done | reflexivity].
Defined.

Lemma init_members_stamps_fetched_witness :
  Main.is_admin example_admins (str 1) = true
  ∧ joined_at
      (join_data
         (Main.init_members example_admins 1 (-100)
            (Some [example_robot; {| id := 8; is_bot := false |}])
            example_now example_bot).1) "-100" "8" = Some example_now
  ∧ joined_at
      (join_data
         (Main.init_members example_admins 1 (-100)
            (Some [example_robot; {| id := 8; is_bot := false |}])
            example_now example_bot).1) "-100" "42"
    = joined_at (join_data example_bot) "-100" "42".
Proof.
  assert (Main.is_admin example_admins (str 1) = true) as Hadm by reflexivity.
  destruct (init_members_stamps_fetched example_admins 1 (-100)
              (Some [example_robot; {| id := 8; is_bot := false |}])
              example_now example_bot) as (_ & _ & Hok).
  destruct (Hok Hadm _ eq_refl) as (Hstamp & Hother & _).
  split_and!; [done | |].
  - apply (Hstamp {| id := 8; is_bot := false |}); [right; left | reflexivity].
  - apply Hother. intros [_ Hex].
    apply Exists_cons in Hex as [[Hb _]|Hex]; [discriminate|].
    apply Exists_cons in Hex as [[_ Hu]|Hex]; [discriminate|].
    by apply Exists_nil in Hex.
Defined.

Lemma initialised_members_are_kept_witness :
  Main.is_admin example_admins (str 1) = true
  ∧ example_now + timedelta_days 30 - example_now <= timedelta_days 30
  ∧ joined_at
      (join_data
         (remove_expired_members api_accepts api_accepts
            (example_now + timedelta_days 30)
            (Main.init_members example_admins 1 (-100)
               (Some [{| id := 7; is_bot := false |}]) example_now
               example_bot).1).1) "-100" "7" = Some example_now.
Proof.
  assert (example_now + timedelta_days 30 - example_now <= timedelta_days 30)
    as Hle by lia.
  split_and!; [reflexivity | done |].
  apply (initialised_members_are_kept example_admins 1 (-100)
           [{| id := 7; is_bot := false |}] example_now api_accepts api_accepts
           (example_now + timedelta_days 30) {| id := 7; is_bot := false |}
           example_bot); [reflexivity | left | reflexivity | done].
Defined.

End MainMore.
